(** * Financial Document Analyzer: a shallow embedding and its properties

    The development follows the Python sources module by module:
    - [Py]        : the fragment of Python the code relies on (exceptions,
                    [try]/[except], [with], string methods);
    - [Tools]     : [tools.py], the PDF text extractor;
    - [Database]  : [database.py], the [analysis_results] table;
    - [CrewAI]    : the sequential task runner configured in [worker.py];
    - [Celery]    : [celery_app.py], the result backend as the code reads it;
    - [Worker]    : [agents.py], [task.py] and [worker.py], the background job;
    - [OsPath]    : [os.path.splitext] and [os.path.join];
    - [Main]      : [main.py], the HTTP front door.

    Text is modelled by [string] (characters are code points below 256).
    Everything outside the repository (the file system, pdfplumber, the LLM
    agents, SQLAlchemy, Celery, uuid4) is an explicit environment value that
    the functions receive, and may answer with an exception wherever the
    Python call may raise. *)

From Stdlib Require Import String Ascii List ZArith Lia Bool.
From stdpp Require Import gmap strings list pretty.
From Equations Require Import Equations.
Local Open Scope string_scope.

(* ===================================================================== *)
(** * Python fragment                                                     *)
(* ===================================================================== *)

Module Py.

(** Instances of [Exception], i.e. what [except Exception] catches.
    [PyError kind msg] is an ordinary exception whose [str] is [msg];
    [HTTPException] is FastAPI's (Starlette's) exception class. *)
Inductive exn : Type :=
| PyError (kind : string) (msg : string)
| HTTPException (status_code : nat) (detail : string).

(** [str(e)].  Starlette defines [HTTPException.__str__] as
    [f"{self.status_code}: {self.detail}"]. *)
Definition str (e : exn) : string :=
  match e with
  | PyError _ msg => msg
  | HTTPException code detail => pretty code ++ ": " ++ detail
  end.

(** The result of running a piece of Python: a value or a raised exception. *)
Inductive outcome (A : Type) : Type :=
| Return (a : A)
| Raise (e : exn).
Arguments Return {A} a.
Arguments Raise {A} e.

Definition bind {A B} (c : outcome A) (k : A -> outcome B) : outcome B :=
  match c with
  | Return a => k a
  | Raise e => Raise e
  end.

(** [try: body  except Exception as e: handler e] *)
Definition try_except {A} (body : outcome A) (handler : exn -> outcome A) : outcome A :=
  match body with
  | Return a => Return a
  | Raise e => handler e
  end.

(** [with cm as x: body x], for a context manager whose [__exit__] runs
    [close] and does not swallow exceptions: an exception of [close]
    replaces whatever the body produced. *)
Definition with_ {R A} (cm : outcome R) (close : R -> outcome unit)
    (body : R -> outcome A) : outcome A :=
  match cm with
  | Raise e => Raise e
  | Return r =>
      match body r, close r with
      | _, Raise e => Raise e
      | res, Return _ => res
      end
  end.

Definition is_return {A} (c : outcome A) : bool :=
  match c with Return _ => true | Raise _ => false end.

(** ** Strings *)

Definition NL : ascii := "010"%char.
Definition nl : string := String NL EmptyString.

(** [c.isspace()] on the code points below 256. *)
Definition isspace (c : ascii) : bool :=
  let n := nat_of_ascii c in
  (((9 <=? n) && (n <=? 13)) || ((28 <=? n) && (n <=? 32))
   || (n =? 133) || (n =? 160))%nat.

Fixpoint lstrip (s : string) : string :=
  match s with
  | EmptyString => EmptyString
  | String a t => if isspace a then lstrip t else s
  end.

Fixpoint rstrip (s : string) : string :=
  match s with
  | EmptyString => EmptyString
  | String a t =>
      match rstrip t with
      | EmptyString => if isspace a then EmptyString else String a EmptyString
      | r => String a r
      end
  end.

(** [s.strip()] *)
Definition strip (s : string) : string := rstrip (lstrip s).

(** Truthiness of a string: [bool(s)]. *)
Definition truthy (s : string) : bool :=
  match s with EmptyString => false | String _ _ => true end.

(** [x or ""] for [x : Optional[str]]. *)
Definition or_empty (x : option string) : string :=
  match x with
  | Some t => if truthy t then t else ""
  | None => ""
  end.

(** ["\n\n" in s] *)
Fixpoint contains_nn (s : string) : bool :=
  match s with
  | String a (String b _ as r) => (Ascii.eqb a NL && Ascii.eqb b NL) || contains_nn r
  | _ => false
  end.

(** [s.replace("\n\n", "\n")]: the non-overlapping occurrences, scanned from
    the left, are each replaced. *)
Fixpoint replace_nn (s : string) : string :=
  match s with
  | String a (String b t as r) =>
      if Ascii.eqb a NL && Ascii.eqb b NL then String NL (replace_nn t)
      else String a (replace_nn r)
  | _ => s
  end.

(** [s.endswith(t)] and [s.startswith(t)] *)
Fixpoint startswith (s t : string) : bool :=
  match t with
  | EmptyString => true
  | String b t' =>
      match s with
      | EmptyString => false
      | String a s' => Ascii.eqb a b && startswith s' t'
      end
  end.

Fixpoint endswith (s t : string) : bool :=
  String.eqb s t ||
  match s with
  | EmptyString => false
  | String _ s' => endswith s' t
  end.

End Py.

Import Py.

Declare Scope py_scope.
Notation "'do' x <- c ; k" := (Py.bind c (fun x => k))
  (at level 10, x name, c at level 100, k at level 200) : py_scope.
Local Open Scope py_scope.

(* ===================================================================== *)
(** * tools.py                                                            *)
(* ===================================================================== *)

Module Tools.

(** ** The environment: [os.path.exists] and pdfplumber *)

(** A page of an opened PDF: [page.extract_text()] returns a string or
    [None], or raises. *)
Record Page : Type := { extract_text : outcome (option string) }.

(** An opened PDF: [pdf.pages] and what closing it does. *)
Record PDF : Type := {
  pages : outcome (list Page);
  close : outcome unit
}.

Record World : Type := {
  path_exists : string -> bool;           (* os.path.exists *)
  pdfplumber_open : string -> outcome PDF (* pdfplumber.open *)
}.

(** ** The [while "\n\n" in text: text = text.replace("\n\n", "\n")] loop *)

Lemma replace_nn_length (s : string) :
  String.length (replace_nn s) <= String.length s.
Proof.
  remember (String.length s) as n eqn:Hn. revert s Hn.
  induction n as [n IH] using lt_wf_ind. intros s Hn.
  destruct s as [|a [|b t]]; simpl in *; try lia.
  destruct (Ascii.eqb a NL && Ascii.eqb b NL); simpl.
  - specialize (IH (String.length t) ltac:(lia) t eq_refl). lia.
  - specialize (IH (String.length (String b t)) ltac:(simpl; lia) (String b t) eq_refl).
    simpl in IH. lia.
Qed.

Lemma replace_nn_shrinks (s : string) :
  contains_nn s = true -> String.length (replace_nn s) < String.length s.
Proof.
  remember (String.length s) as n eqn:Hn. revert s Hn.
  induction n as [n IH] using lt_wf_ind. intros s Hn H.
  destruct s as [|a [|b t]]; simpl in *; try discriminate.
  destruct (Ascii.eqb a NL && Ascii.eqb b NL); simpl in *.
  - pose proof (replace_nn_length t). lia.
  - specialize (IH (String.length (String b t)) ltac:(simpl; lia) (String b t) eq_refl H).
    simpl in IH. lia.
Qed.

Definition inspect {A} (a : A) : {b | a = b} := exist _ a eq_refl.

Equations? collapse_loop (text : string) : string by wf (String.length text) lt :=
  collapse_loop text with inspect (contains_nn text) => {
    | exist _ true H => collapse_loop (replace_nn text);
    | exist _ false _ => text }.
Proof. apply replace_nn_shrinks. exact H. Qed.

(** ** [FinancialDocumentTool._run] *)

(** The body of [for page in pdf.pages], threading [full_report]. *)
Fixpoint for_pages (ps : list Page) (full_report : string) : outcome string :=
  match ps with
  | [] => Return full_report
  | page :: rest =>
      do x <- extract_text page;
      let text := or_empty x in
      let text := collapse_loop text in
      for_pages rest (full_report ++ (text ++ nl))
  end.

(** The [with pdfplumber.open(path) as pdf: ...] block, started with
    [full_report = ""]. *)
Definition read_pages (w : World) (path : string) : outcome string :=
  with_ (pdfplumber_open w path) close
    (fun pdf => do ps <- pages pdf; for_pages ps "").

Definition default_path : string := "data/sample.pdf".

Definition not_found_msg (path : string) : string :=
  "ERROR: File not found at path: " ++ path.
Definition warning_msg : string :=
  "WARNING: No readable text found in the PDF.".
Definition failed_msg (e : exn) : string :=
  "ERROR: Failed to read PDF. Details: " ++ str e.

(** [_run(self, path="data/sample.pdf")]; [None] stands for a call without
    the [path] argument. *)
Definition path_of (arg : option string) : string :=
  match arg with Some p => p | None => default_path end.

Definition _run (w : World) (arg : option string) : outcome string :=
  let path := path_of arg in
  if negb (path_exists w path) then Return (not_found_msg path)
  else
    try_except
      (do full_report <- read_pages w path;
       if negb (truthy (strip full_report)) then Return warning_msg
       else Return full_report)
      (fun e => Return (failed_msg e)).

(** ** Specification-side definitions *)

(** Every run of two or more consecutive newlines becomes one newline: a
    newline is dropped exactly when another newline follows it. *)
Fixpoint squeeze_newlines (s : string) : string :=
  match s with
  | String a (String b _ as r) =>
      if Ascii.eqb a NL && Ascii.eqb b NL then squeeze_newlines r
      else String a (squeeze_newlines r)
  | _ => s
  end.

(** The specification's wording, "collapse each sequence of consecutive
    blank lines to a single blank line": a run of three or more newlines
    (two or more blank lines) is cut down to two newlines (one blank line);
    a newline is dropped exactly when two more newlines follow it. *)
Fixpoint spec_collapse_blank_lines (s : string) : string :=
  match s with
  | String a (String b (String c _) as r) =>
      if Ascii.eqb a NL && Ascii.eqb b NL && Ascii.eqb c NL
      then spec_collapse_blank_lines r
      else String a (spec_collapse_blank_lines r)
  | _ => s
  end.

(** The text of the non-newline characters, in order. *)
Fixpoint without_newlines (s : string) : string :=
  match s with
  | EmptyString => EmptyString
  | String a t => if Ascii.eqb a NL then without_newlines t
                  else String a (without_newlines t)
  end.

(** The report assembled from the page texts: each page's normalised text
    followed by one newline, in page order. *)
Fixpoint report_of (texts : list (option string)) : string :=
  match texts with
  | [] => ""
  | x :: rest => (squeeze_newlines (or_empty x) ++ nl) ++ report_of rest
  end.

(** The specification's reading of the same report: blank-line runs cut to
    one blank line, page texts concatenated. *)
Fixpoint spec_report_of (texts : list (option string)) : string :=
  match texts with
  | [] => ""
  | x :: rest => spec_collapse_blank_lines (or_empty x) ++ spec_report_of rest
  end.

(** Every character is whitespace: what makes [s.strip()] empty. *)
Fixpoint all_space (s : string) : bool :=
  match s with
  | EmptyString => true
  | String a t => isspace a && all_space t
  end.

(** A document that opens, lists its pages, extracts each page's text and
    closes without an exception. *)
Definition reads_as (w : World) (path : string) (texts : list (option string)) : Prop :=
  path_exists w path = true /\
  exists pdf ps,
    pdfplumber_open w path = Return pdf /\
    close pdf = Return tt /\
    pages pdf = Return ps /\
    map extract_text ps = map Return texts.


(** ** Strings: basic facts *)

Lemma app_cons (a : ascii) (s t : string) : String a s ++ t = String a (s ++ t).
Proof. reflexivity. Qed.

Lemma app_empty_l (s : string) : "" ++ s = s.
Proof. reflexivity. Qed.

Lemma app_empty_r (s : string) : s ++ "" = s.
Proof. induction s as [|a s IH]; [reflexivity|]. rewrite app_cons, IH. reflexivity. Qed.

Lemma app_assoc (s t u : string) : (s ++ t) ++ u = s ++ (t ++ u).
Proof.
  induction s as [|a s IH]; [reflexivity|].
  rewrite !app_cons, IH. reflexivity.
Qed.

Lemma length_app (s t : string) :
  String.length (s ++ t) = String.length s + String.length t.
Proof.
  induction s as [|a s IH]; [reflexivity|].
  rewrite app_cons. simpl. rewrite IH. reflexivity.
Qed.

(** ** The normalisation loop computes [squeeze_newlines] *)

Definition head_is_nl (s : string) : bool :=
  match s with
  | String b _ => Ascii.eqb b NL
  | EmptyString => false
  end.

Lemma squeeze_cons (a : ascii) (r : string) :
  squeeze_newlines (String a r) =
  if Ascii.eqb a NL && head_is_nl r then squeeze_newlines r
  else String a (squeeze_newlines r).
Proof.
  destruct r as [|b t]; simpl.
  - rewrite andb_false_r. reflexivity.
  - reflexivity.
Qed.

Lemma replace_cons (a : ascii) (r : string) :
  replace_nn (String a r) =
  match r with
  | String b t =>
      if Ascii.eqb a NL && Ascii.eqb b NL then String NL (replace_nn t)
      else String a (replace_nn r)
  | EmptyString => String a EmptyString
  end.
Proof. destruct r; reflexivity. Qed.

Lemma head_replace_nn (s : string) : head_is_nl (replace_nn s) = head_is_nl s.
Proof.
  destruct s as [|a [|b t]]; try reflexivity.
  rewrite replace_cons.
  destruct (Ascii.eqb a NL) eqn:Ha; simpl; rewrite ?Ha; [|reflexivity].
  destruct (Ascii.eqb b NL); simpl; rewrite ?Ha; reflexivity.
Qed.

Lemma squeeze_replace_nn (s : string) :
  squeeze_newlines (replace_nn s) = squeeze_newlines s.
Proof.
  remember (String.length s) as n eqn:Hn. revert s Hn.
  induction n as [n IH] using lt_wf_ind. intros s ->.
  destruct s as [|a [|b t]]; try reflexivity.
  rewrite replace_cons.
  destruct (Ascii.eqb a NL && Ascii.eqb b NL) eqn:Hab.
  - apply andb_true_iff in Hab as [Ha Hb].
    apply Ascii.eqb_eq in Ha, Hb. subst a b.
    rewrite (squeeze_cons NL (String NL t)). simpl head_is_nl.
    rewrite Ascii.eqb_refl. simpl andb.
    rewrite !squeeze_cons, head_replace_nn, Ascii.eqb_refl. simpl andb.
    rewrite (IH (String.length t) ltac:(simpl; lia) t eq_refl).
    reflexivity.
  - rewrite (squeeze_cons a (String b t)), squeeze_cons, head_replace_nn.
    simpl head_is_nl. rewrite Hab.
    rewrite (IH (String.length (String b t)) ltac:(simpl; lia) _ eq_refl).
    reflexivity.
Qed.

Lemma squeeze_no_nn (s : string) :
  contains_nn s = false -> squeeze_newlines s = s.
Proof.
  induction s as [|a r IH]; [reflexivity|].
  destruct r as [|b t]; [reflexivity|].
  intros H. change (contains_nn (String a (String b t)))
    with ((Ascii.eqb a NL && Ascii.eqb b NL) || contains_nn (String b t)) in H.
  apply orb_false_iff in H as [Hab Hr].
  rewrite squeeze_cons. simpl head_is_nl. rewrite Hab, (IH Hr). reflexivity.
Qed.

Lemma collapse_loop_squeeze (text : string) :
  collapse_loop text = squeeze_newlines text.
Proof.
  funelim (collapse_loop text).
  - match goal with IH : collapse_loop _ = squeeze_newlines _ |- _ => rewrite IH end.
    apply squeeze_replace_nn.
  - symmetry. apply squeeze_no_nn. assumption.
Qed.

Lemma head_squeeze (s : string) :
  head_is_nl (squeeze_newlines s) = head_is_nl s.
Proof.
  induction s as [|c u IH]; [reflexivity|].
  rewrite squeeze_cons.
  destruct (Ascii.eqb c NL && head_is_nl u) eqn:H; [|reflexivity].
  apply andb_true_iff in H as [Hc Hu].
  rewrite IH, Hu. simpl. symmetry. exact Hc.
Qed.

Lemma contains_nn_squeeze (s : string) : contains_nn (squeeze_newlines s) = false.
Proof.
  induction s as [|a r IH]; [reflexivity|].
  rewrite squeeze_cons.
  destruct (Ascii.eqb a NL && head_is_nl r) eqn:H; [exact IH|].
  destruct (squeeze_newlines r) as [|b t] eqn:Hsq; [reflexivity|].
  change (contains_nn (String a (String b t)))
    with ((Ascii.eqb a NL && Ascii.eqb b NL) || contains_nn (String b t)).
  rewrite IH, orb_false_r.
  pose proof (head_squeeze r) as Hhd.
  rewrite Hsq in Hhd. simpl in Hhd. rewrite Hhd. exact H.
Qed.

Lemma without_newlines_squeeze (s : string) :
  without_newlines (squeeze_newlines s) = without_newlines s.
Proof.
  induction s as [|a r IH]; [reflexivity|].
  rewrite squeeze_cons.
  destruct (Ascii.eqb a NL && head_is_nl r) eqn:H.
  - apply andb_true_iff in H as [Ha _]. simpl. rewrite Ha. exact IH.
  - simpl. rewrite IH. reflexivity.
Qed.

Lemma squeeze_idempotent (s : string) :
  squeeze_newlines (squeeze_newlines s) = squeeze_newlines s.
Proof. apply squeeze_no_nn, contains_nn_squeeze. Qed.


(** ** [strip] leaves nothing exactly when every character is whitespace *)

Lemma lstrip_all_space (s : string) : all_space (lstrip s) = all_space s.
Proof.
  induction s as [|a t IH]; [reflexivity|].
  simpl. destruct (isspace a) eqn:Ha; [exact IH|].
  simpl. rewrite Ha. reflexivity.
Qed.

Lemma truthy_rstrip (s : string) : truthy (rstrip s) = negb (all_space s).
Proof.
  induction s as [|a t IH]; [reflexivity|].
  simpl. destruct (rstrip t) eqn:Hr; simpl in IH.
  - destruct (all_space t); [|discriminate].
    rewrite andb_true_r. destruct (isspace a); reflexivity.
  - destruct (all_space t); [discriminate|].
    rewrite andb_false_r. reflexivity.
Qed.

Lemma truthy_strip (s : string) : truthy (strip s) = negb (all_space s).
Proof. unfold strip. rewrite truthy_rstrip, lstrip_all_space. reflexivity. Qed.

Lemma not_all_space_char (s : string) :
  all_space s = false ->
  exists s1 c s2, s = s1 ++ String c s2 /\ isspace c = false.
Proof.
  induction s as [|a t IH]; [discriminate|].
  simpl. destruct (isspace a) eqn:Ha; simpl.
  - intros H. destruct (IH H) as (s1 & c & s2 & -> & Hc).
    exists (String a s1), c, s2. split; [reflexivity|exact Hc].
  - intros _. exists "", a, t. split; [reflexivity|exact Ha].
Qed.

(** ** What [_run] returns *)

Lemma for_pages_texts (ps : list Page) (texts : list (option string)) (acc : string) :
  map extract_text ps = map Return texts ->
  for_pages ps acc = Return (acc ++ report_of texts).
Proof.
  revert texts acc.
  induction ps as [|p ps IH]; intros [|x texts] acc H; try discriminate.
  - simpl. rewrite app_empty_r. reflexivity.
  - simpl in H. injection H as Hp Hps.
    simpl. rewrite Hp. simpl.
    rewrite (IH texts _ Hps), collapse_loop_squeeze, app_assoc. reflexivity.
Qed.

Lemma for_pages_fault (ps1 : list Page) (p : Page) (ps2 : list Page)
    (texts1 : list (option string)) (e : exn) (acc : string) :
  map extract_text ps1 = map Return texts1 ->
  extract_text p = Raise e ->
  for_pages (ps1 ++ p :: ps2) acc = Raise e.
Proof.
  revert texts1 acc.
  induction ps1 as [|q ps1 IH]; intros [|x texts1] acc H Hp; try discriminate.
  - simpl. rewrite Hp. reflexivity.
  - simpl in H. injection H as Hq Hps1.
    simpl. rewrite Hq. simpl. apply (IH texts1); assumption.
Qed.

Lemma read_pages_texts (w : World) (path : string) (texts : list (option string)) :
  reads_as w path texts -> read_pages w path = Return (report_of texts).
Proof.
  intros (_ & pdf & ps & Hopen & Hclose & Hpages & Htexts).
  unfold read_pages, with_. rewrite Hopen, Hpages, Hclose. simpl.
  rewrite (for_pages_texts ps texts "" Htexts). reflexivity.
Qed.

Lemma run_reads (w : World) (path : string) (texts : list (option string)) :
  reads_as w path texts ->
  _run w (Some path) =
  Return (if all_space (report_of texts) then warning_msg else report_of texts).
Proof.
  intros H. pose proof (read_pages_texts w path texts H) as Hr.
  destruct H as (Hex & _).
  unfold _run. simpl path_of. rewrite Hex, Hr. simpl.
  rewrite truthy_strip, negb_involutive.
  destruct (all_space (report_of texts)); reflexivity.
Qed.

Lemma report_of_ends_nl (texts : list (option string)) :
  texts <> [] -> exists r, report_of texts = r ++ nl.
Proof.
  induction texts as [|x rest IH]; [congruence|]. intros _.
  destruct rest as [|y rest'].
  - exists (squeeze_newlines (or_empty x)). simpl. apply app_empty_r.
  - destruct IH as [r Hr]; [discriminate|].
    exists ((squeeze_newlines (or_empty x) ++ nl) ++ r).
    change (report_of (x :: y :: rest'))
      with ((squeeze_newlines (or_empty x) ++ nl) ++ report_of (y :: rest')).
    rewrite Hr, <- app_assoc. reflexivity.
Qed.

Lemma report_of_concat (texts : list (option string)) :
  report_of texts
  = String.concat "" (map (fun x => squeeze_newlines (or_empty x) ++ nl) texts).
Proof.
  induction texts as [|x rest IH]; [reflexivity|].
  destruct rest as [|y rest'].
  - simpl. apply app_empty_r.
  - change (report_of (x :: y :: rest'))
      with ((squeeze_newlines (or_empty x) ++ nl) ++ report_of (y :: rest')).
    rewrite IH. reflexivity.
Qed.

Lemma endswith_unfold (s t : string) :
  endswith s t
  = (String.eqb s t
     || match s with EmptyString => false | String _ s' => endswith s' t end).
Proof. destruct s; reflexivity. Qed.

Lemma endswith_app (r t : string) : endswith (r ++ t) t = true.
Proof.
  induction r as [|a r IH].
  - rewrite app_empty_l, endswith_unfold, String.eqb_refl. reflexivity.
  - rewrite app_cons, endswith_unfold, IH. apply orb_true_r.
Qed.

Lemma run_returns (w : World) (arg : option string) :
  exists s : string, _run w arg = Return s.
Proof.
  unfold _run. destruct (path_exists w (path_of arg)); simpl; [|eauto].
  destruct (read_pages w (path_of arg)) as [r|e]; simpl; [|eauto].
  destruct (truthy (strip r)); simpl; eauto.
Qed.

(** Runs of newlines, stated on the shape of the text. *)

Fixpoint newlines (k : nat) : string :=
  match k with
  | 0 => ""
  | S k' => String NL (newlines k')
  end.

Lemma squeeze_run (k : nat) (s : string) :
  head_is_nl s = false ->
  squeeze_newlines (newlines (S k) ++ s) = String NL (squeeze_newlines s).
Proof.
  intros Hs. induction k as [|k IH].
  - simpl newlines. rewrite app_cons, app_empty_l, squeeze_cons, Hs.
    rewrite andb_false_r. reflexivity.
  - change (newlines (S (S k))) with (String NL (newlines (S k))).
    rewrite app_cons, squeeze_cons.
    replace (head_is_nl (newlines (S k) ++ s)) with true by reflexivity.
    rewrite Ascii.eqb_refl. exact IH.
Qed.

Lemma squeeze_other (c : ascii) (s : string) :
  Ascii.eqb c NL = false ->
  squeeze_newlines (String c s) = String c (squeeze_newlines s).
Proof. intros Hc. rewrite squeeze_cons, Hc. reflexivity. Qed.


(** ** Concrete documents *)

(** A file system holding one PDF, [report.pdf], with the given pages. *)
Definition pdf_of (texts : list (option string)) : PDF :=
  {| pages := Return (map (fun x => {| extract_text := Return x |}) texts);
     close := Return tt |}.

Definition world_with (texts : list (option string)) : World :=
  {| path_exists := fun p => String.eqb p "report.pdf";
     pdfplumber_open := fun _ => Return (pdf_of texts) |}.

Lemma world_with_reads (texts : list (option string)) :
  reads_as (world_with texts) "report.pdf" texts.
Proof.
  split; [reflexivity|].
  exists (pdf_of texts), (map (fun x => {| extract_text := Return x |}) texts).
  repeat split. rewrite map_map. reflexivity.
Qed.

(** Two blank lines between [a] and [b]. *)
Definition blank_line_text : string := "a" ++ nl ++ nl ++ nl ++ "b".

Definition revenue_pages : list (option string) :=
  [Some ("Revenue: $100" ++ nl ++ nl ++ "Costs: $40"); None].

Definition broken_world : World :=
  {| path_exists := fun _ => true;
     pdfplumber_open := fun _ => Raise (PyError "PDFSyntaxError" "No /Root object!") |}.

Definition torn_page_world : World :=
  {| path_exists := fun _ => true;
     pdfplumber_open := fun _ =>
       Return {| pages := Return [ {| extract_text := Return (Some "Revenue") |};
                                   {| extract_text := Raise (PyError "KeyError" "MediaBox") |} ];
                 close := Return tt |} |}.

Example run_missing :
  _run (world_with revenue_pages) (Some "other.pdf")
  = Return "ERROR: File not found at path: other.pdf".
Proof. reflexivity. Qed.

Example run_scanned :
  _run (world_with [Some (" " ++ nl); None]) (Some "report.pdf")
  = Return "WARNING: No readable text found in the PDF.".
Proof. reflexivity. Qed.

Example run_broken :
  _run broken_world (Some "report.pdf")
  = Return "ERROR: Failed to read PDF. Details: No /Root object!".
Proof. reflexivity. Qed.

Example run_torn_page :
  _run torn_page_world (Some "report.pdf")
  = Return "ERROR: Failed to read PDF. Details: MediaBox".
Proof. reflexivity. Qed.

Example collapse_three : collapse_loop blank_line_text = "a" ++ nl ++ "b".
Proof. reflexivity. Qed.

(** ** The claims about the extractor *)

(** C2, as stated, fails.  On a one-page document whose text has two blank
    lines between [a] and [b], the specification's normalisation keeps a
    single blank line, while the extractor returns the text with no blank
    line left (and with a newline appended). *)
Lemma run_keeps_no_blank_line :
  reads_as (world_with [Some blank_line_text]) "report.pdf" [Some blank_line_text]
  /\ spec_report_of [Some blank_line_text] = "a" ++ nl ++ nl ++ "b"
  /\ _run (world_with [Some blank_line_text]) (Some "report.pdf")
     = Return ("a" ++ nl ++ "b" ++ nl)
  /\ _run (world_with [Some blank_line_text]) (Some "report.pdf")
     <> Return (spec_report_of [Some blank_line_text])
  /\ _run (world_with [Some blank_line_text]) (Some "report.pdf")
     <> Return (spec_report_of [Some blank_line_text] ++ nl).
Proof.
  split; [apply world_with_reads|].
  split; [reflexivity|].
  split; [reflexivity|].
  split; vm_compute; discriminate.
Qed.

(** C2, amended.  For a document that opens, lists and extracts its pages
    and closes without an exception, the extractor normalises each page's
    text by collapsing every run of consecutive newlines to one newline (so
    that no blank line is left and no other character is touched), appends a
    newline to each page and concatenates in page order; it returns that
    text, or the warning when the text is blank after trimming. *)
Theorem run_collapses_newline_runs
    (w : World) (path : string) (texts : list (option string)) :
  reads_as w path texts ->
  _run w (Some path)
  = Return (if all_space (report_of texts) then warning_msg else report_of texts)
  /\ (forall text, collapse_loop text = squeeze_newlines text)
  /\ (forall k s, head_is_nl s = false ->
        squeeze_newlines (newlines (S k) ++ s) = String NL (squeeze_newlines s))
  /\ (forall c s, Ascii.eqb c NL = false ->
        squeeze_newlines (String c s) = String c (squeeze_newlines s))
  /\ (forall text, contains_nn (collapse_loop text) = false
        /\ without_newlines (collapse_loop text) = without_newlines text).
Proof.
  intros H. split; [exact (run_reads w path texts H)|].
  split; [exact collapse_loop_squeeze|].
  split; [exact squeeze_run|].
  split; [exact squeeze_other|].
  intros text. rewrite collapse_loop_squeeze.
  split; [apply contains_nn_squeeze|apply without_newlines_squeeze].
Qed.

Lemma run_collapses_newline_runs_witness :
  _run (world_with revenue_pages) (Some "report.pdf")
  = Return ("Revenue: $100" ++ nl ++ "Costs: $40" ++ nl ++ nl).
Proof.
  exact (proj1 (run_collapses_newline_runs (world_with revenue_pages) "report.pdf"
                  revenue_pages (world_with_reads revenue_pages))).
Defined.

(** What [read_pages] gives, by what the environment does. *)







(** C8.  For a successful extraction (the document reads without an
    exception and the text is not blank), the result is the page texts in
    page order, each with its newline runs collapsed and one newline
    appended, a page without text counting as the empty string; it ends with
    a newline and has a character that is not whitespace. *)
Theorem run_success_text
    (w : World) (path : string) (texts : list (option string)) :
  reads_as w path texts ->
  all_space (report_of texts) = false ->
  _run w (Some path) = Return (report_of texts)
  /\ report_of texts
     = String.concat "" (map (fun x => squeeze_newlines (or_empty x) ++ nl) texts)
  /\ or_empty None = ""
  /\ (exists r, report_of texts = r ++ nl)
  /\ endswith (report_of texts) nl = true
  /\ (exists s1 c s2, report_of texts = s1 ++ String c s2 /\ isspace c = false).
Proof.
  intros H Hns.
  assert (Hne : texts <> []) by (intros ->; discriminate).
  split; [rewrite (run_reads w path texts H), Hns; reflexivity|].
  split; [apply report_of_concat|].
  split; [reflexivity|].
  split; [apply report_of_ends_nl, Hne|].
  split; [|apply not_all_space_char, Hns].
  destruct (report_of_ends_nl texts Hne) as [r ->]. apply endswith_app.
Qed.

Lemma run_success_text_witness :
  _run (world_with revenue_pages) (Some "report.pdf")
  = Return (report_of revenue_pages).
Proof.
  exact (proj1 (run_success_text (world_with revenue_pages) "report.pdf"
                  revenue_pages (world_with_reads revenue_pages) eq_refl)).
Defined.

(** C10.  Called without a path, [_run] reads [data/sample.pdf]: it behaves
    as the call with that path, returns a string, and reports that very path
    when the file is missing. *)
Theorem run_default_path (w : World) :
  _run w None = _run w (Some "data/sample.pdf")
  /\ is_return (_run w None) = true
  /\ (path_exists w "data/sample.pdf" = false ->
        _run w None = Return "ERROR: File not found at path: data/sample.pdf").
Proof.
  split; [reflexivity|]. split.
  - destruct (run_returns w None) as [s Hs]. rewrite Hs. reflexivity.
  - intros H. unfold _run. simpl path_of. unfold default_path. rewrite H.
    reflexivity.
Qed.

End Tools.

(* ===================================================================== *)
(** * database.py                                                         *)
(* ===================================================================== *)

Module Database.

(** The ORM object [AnalysisResult(filename=..., query=..., result=...)]
    before it is inserted. *)
Record AnalysisResult : Type := {
  filename : string;
  query : string;
  result : string
}.

(** A row of [analysis_results]: the primary key and [created_at] are filled
    in at insertion. *)
Record Row : Type := {
  id : Z;
  record : AnalysisResult;
  created_at : nat
}.

(** The committed table and the objects added to the session that is open. *)
Record Store : Type := {
  table : list Row;
  pending : list AnalysisResult
}.

(** What the engine does outside the program's control: the exception (if
    any) each session operation raises, the clock of [datetime.utcnow],
    and the candidate key SQLite's random search comes up with, given the
    keys in use, once the largest key is taken ([None]: it gives up). *)
Record Engine : Type := {
  session_fault : option exn;
  add_fault : option exn;
  commit_fault : option exn;
  close_fault : option exn;
  utcnow : nat;
  random_rowid : list Z -> option Z
}.

(** The largest rowid of SQLite, a signed 64-bit integer. *)
Definition MAX_ROWID : Z := 9223372036854775807.

(** The key SQLite gives a row inserted without one into a table whose
    [INTEGER PRIMARY KEY] column is the rowid: 1 for an empty table, else
    one more than the largest key in use; once the largest key is
    [MAX_ROWID], a positive key found at random that is not in use, or no
    key at all (the insert fails with [SQLITE_FULL]). *)
Definition next_id (eng : Engine) (t : list Row) : option Z :=
  match map id t with
  | [] => Some 1%Z
  | k :: ks =>
      let largest := fold_right Z.max k ks in
      if (largest <? MAX_ROWID)%Z then Some (largest + 1)%Z
      else
        match random_rowid eng (k :: ks) with
        | Some c =>
            if (1 <=? c)%Z && (c <=? MAX_ROWID)%Z && negb (existsb (Z.eqb c) (k :: ks))
            then Some c else None
        | None => None
        end
  end.

(** [INSERT] the pending objects, in the order they were added; [None]
    when a row gets no key. *)
Fixpoint flush (eng : Engine) (objs : list AnalysisResult) (t : list Row)
  : option (list Row) :=
  match objs with
  | [] => Some t
  | r :: rest =>
      match next_id eng t with
      | Some k =>
          flush eng rest
            (t ++ [{| id := k; record := r; created_at := utcnow eng |}])%list
      | None => None
      end
  end.

(** The exception of an insert that found no key. *)
Definition database_full : exn :=
  PyError "OperationalError" "(sqlite3.OperationalError) database or disk is full".

Definition fault_or {A} (f : option exn) (ok : outcome A * Store) (s : Store)
  : outcome A * Store :=
  match f with
  | Some e => (Raise e, s)
  | None => ok
  end.

(** [db = SessionLocal()] *)
Definition SessionLocal (eng : Engine) (s : Store) : outcome unit * Store :=
  fault_or (session_fault eng)
    (Return tt, {| table := table s; pending := [] |}) s.

(** [db.add(record)] *)
Definition add (eng : Engine) (r : AnalysisResult) (s : Store) : outcome unit * Store :=
  fault_or (add_fault eng)
    (Return tt, {| table := table s; pending := (pending s ++ [r])%list |}) s.

(** [db.commit()]: nothing is written when it raises. *)
Definition commit (eng : Engine) (s : Store) : outcome unit * Store :=
  fault_or (commit_fault eng)
    match flush eng (pending s) (table s) with
    | Some t => (Return tt, {| table := t; pending := [] |})
    | None => (Raise database_full, s)
    end s.

(** [db.close()] *)
Definition close (eng : Engine) (s : Store) : outcome unit * Store :=
  fault_or (close_fault eng)
    (Return tt, {| table := table s; pending := [] |}) s.

End Database.

(* ===================================================================== *)
(** * The CrewAI runner used by worker.py                                 *)
(* ===================================================================== *)

Module CrewAI.

Inductive Process : Type := sequential | hierarchical.

Record Agent : Type := {
  role : string;
  goal : string;
  backstory : string;
  agent_tools : list string;
  llm : string;
  verbose : bool;
  allow_delegation : bool
}.

Record Task : Type := {
  description : string;
  expected_output : string;
  agent : Agent;
  tools : list string;
  async_execution : bool
}.

Record Crew : Type := {
  agents : list Agent;
  tasks : list Task;
  process : Process;
  crew_verbose : bool
}.

Record CrewOutput : Type := {
  raw : string;
  tasks_output : list string
}.

(** [str(result)] of a crew output without a structured form is its raw
    text. *)
Definition str_output (o : CrewOutput) : string := raw o.

(** What an observer of a run sees: a task (by its index in the crew)
    starts, and later finishes with an output or fails with an exception. *)
Inductive event : Type :=
| Started (i : nat)
| Finished (i : nat)
| Failed (i : nat).

(** The agents' side of a run: what executing a task on the given inputs
    and context (earlier outputs) produces, and, for a hierarchical crew,
    the whole run, which is not described here. *)
Record Runtime : Type := {
  execute : Task -> gmap string string -> list string -> outcome string;
  run_hierarchical : Crew -> gmap string string -> outcome CrewOutput * list event
}.

(** Waiting for the futures of the asynchronous tasks, in the order they
    were started; their outputs replace the outputs collected so far. *)
Fixpoint process_async_tasks (futures : list (nat * outcome string))
  : outcome (list string) * list event :=
  match futures with
  | [] => (Return [], [])
  | (i, Raise e) :: _ => (Raise e, [Failed i])
  | (i, Return o) :: rest =>
      let '(r, tr) := process_async_tasks rest in
      (match r with Return outs => Return (o :: outs) | Raise e => Raise e end,
       Finished i :: tr)
  end.

Definition context_of (last_sync_output : option string) : list string :=
  match last_sync_output with Some o => [o] | None => [] end.

(** Modelled from the spec: the runner itself ([Crew.kickoff] and the
    sequential process of the CrewAI library) is not among the repository's
    files; the specification (4.2) describes it as two stages composed
    sequentially with an implicit hand-off of the earlier output.  The loop
    over the crew's tasks: an asynchronous task is started and left
    running; a synchronous task first waits for the futures, then runs to
    its end, with the outputs so far as its context, before the loop goes
    on. *)
Fixpoint execute_tasks (rt : Runtime) (inputs : gmap string string)
    (ts : list Task) (task_index : nat) (task_outputs : list string)
    (futures : list (nat * outcome string)) (last_sync_output : option string)
  : outcome (list string) * list event :=
  match ts with
  | [] =>
      match futures with
      | [] => (Return task_outputs, [])
      | _ => process_async_tasks futures
      end
  | task :: rest =>
      if async_execution task then
        let future := execute rt task inputs (context_of last_sync_output) in
        let '(r, tr) :=
          execute_tasks rt inputs rest (S task_index) task_outputs
            (futures ++ [(task_index, future)])%list last_sync_output in
        (r, Started task_index :: tr)
      else
        let '(joined, tr1) :=
          match futures with
          | [] => (Return task_outputs, [])
          | _ => process_async_tasks futures
          end in
        match joined with
        | Raise e => (Raise e, tr1)
        | Return outs =>
            match execute rt task inputs outs with
            | Raise e => (Raise e, (tr1 ++ [Started task_index; Failed task_index])%list)
            | Return o =>
                let '(r, tr2) :=
                  execute_tasks rt inputs rest (S task_index) (outs ++ [o])%list []
                    (Some o) in
                (r, (tr1 ++ Started task_index :: Finished task_index :: tr2)%list)
            end
        end
  end.

Definition create_crew_output (task_outputs : list string) : outcome CrewOutput :=
  match last task_outputs with
  | Some o => Return {| raw := o; tasks_output := task_outputs |}
  | None => Raise (PyError "ValueError" "No task outputs available to create crew output.")
  end.

(** [crew.kickoff(inputs=...)] with the events of the run. *)
Definition kickoff (rt : Runtime) (crew : Crew) (inputs : gmap string string)
  : outcome CrewOutput * list event :=
  match process crew with
  | sequential =>
      let '(r, tr) := execute_tasks rt inputs (tasks crew) 0 [] [] None in
      (do outs <- r; create_crew_output outs, tr)
  | hierarchical => run_hierarchical rt crew inputs
  end.

(** ** Reading a trace *)

(** A trace is strictly sequential when no task starts while another is
    running, and tasks start in order, each after the one before it has
    finished.  [running] is the task in flight, [next] the index of the
    task that may start. *)
Fixpoint strictly_sequential (running : option nat) (next : nat) (tr : list event) : bool :=
  match tr with
  | [] => true
  | Started i :: tr' =>
      match running with
      | Some _ => false
      | None => (i =? next)%nat && strictly_sequential (Some i) next tr'
      end
  | Finished i :: tr' =>
      match running with
      | Some j => (i =? j)%nat && strictly_sequential None (S i) tr'
      | None => false
      end
  | Failed i :: tr' =>
      match running with
      | Some j => (i =? j)%nat && match tr' with [] => true | _ => false end
      | None => false
      end
  end.

Definition all_sync (ts : list Task) : bool :=
  forallb (fun t => negb (async_execution t)) ts.

End CrewAI.

(* ===================================================================== *)
(** * celery_app.py: the task queue as the code uses it                   *)
(* ===================================================================== *)

Module Celery.

(** Python values found in a task's result slot. *)
Inductive pyobj : Type :=
| PyNone
| PyStr (s : string)
| PyExc (e : exn).

(** What the result backend holds for a task id. *)
Record TaskMeta : Type := {
  state : string;
  result : pyobj
}.

(** [AsyncResult(task_id, app=celery_app)]: a task id the backend has never
    heard of reads as [PENDING] with no result. *)
Definition AsyncResult (backend : gmap string TaskMeta) (task_id : string) : TaskMeta :=
  match backend !! task_id with
  | Some m => m
  | None => {| state := "PENDING"; result := PyNone |}
  end.

(** What a reader finds after the worker process has recorded the end of
    a task body: [SUCCESS] with the returned value, or [FAILURE] with an
    exception.  The result backend does not keep the exception object: it
    stores its type and arguments, and the reader gets the exception that
    the backend rebuilds from them, [exception_to_python e], which need not
    print as [e] does. *)
Definition meta_of (exception_to_python : exn -> exn) (r : outcome string) : TaskMeta :=
  match r with
  | Return v => {| state := "SUCCESS"; result := PyStr v |}
  | Raise e => {| state := "FAILURE"; result := PyExc (exception_to_python e) |}
  end.

(** [task_track_started=True]: a task being run reads as [STARTED]. *)
Definition mark_started (task_id : string) (backend : gmap string TaskMeta)
  : gmap string TaskMeta :=
  <[task_id := {| state := "STARTED"; result := PyNone |}]> backend.

Definition mark_done (exception_to_python : exn -> exn) (task_id : string)
    (r : outcome string) (backend : gmap string TaskMeta) : gmap string TaskMeta :=
  <[task_id := meta_of exception_to_python r]> backend.

End Celery.

(* ===================================================================== *)
(** * agents.py, task.py, worker.py                                       *)
(* ===================================================================== *)

Module Worker.

Import CrewAI.

Definition tool_name : string := "financial_document_reader".

Definition financial_analyst : Agent :=
  {| role := "Senior Financial Analyst";
     goal := "Analyze the provided financial document and answer the user's query accurately: {query}.";
     backstory := "You are an experienced financial analyst specializing in corporate financial statements.";
     agent_tools := [tool_name];
     llm := "gpt-4o-mini";
     verbose := true;
     allow_delegation := false |}.

Definition verifier : Agent :=
  {| role := "Financial Report Verifier";
     goal := "Verify the financial analysis for accuracy and consistency.";
     backstory := "You are a meticulous financial auditor.";
     agent_tools := [];
     llm := "gpt-4o-mini";
     verbose := true;
     allow_delegation := false |}.

Definition analyze_financial_document : Task :=
  {| description :=
       "Use the financial_document_reader tool to read the PDF at {path}." ++ nl ++ nl
       ++ "STRICT INSTRUCTIONS:" ++ nl
       ++ "- Base your answer ONLY on the document" ++ nl
       ++ "You MUST use the financial_document_reader tool before answering" ++ nl
       ++ "- Do NOT assume missing data" ++ nl
       ++ "- If information is missing, say 'Not found in document'" ++ nl
       ++ "- Quote exact numbers when available" ++ nl ++ nl
       ++ "Then answer the user's query: {query}." ++ nl ++ nl
       ++ "Output must include:" ++ nl
       ++ "1. Key financial metrics (with values)" ++ nl
       ++ "2. Risks (document-backed only)" ++ nl
       ++ "3. Opportunities (document-backed only)" ++ nl
       ++ "4. Final summary";
     expected_output := "Structured financial analysis report.";
     agent := financial_analyst;
     tools := [tool_name];
     async_execution := false |}.

Definition verify_financial_analysis : Task :=
  {| description :=
       "Review the previous financial analysis for accuracy and logical consistency.";
     expected_output := "Verified and improved financial analysis.";
     agent := verifier;
     tools := [];
     async_execution := false |}.

Definition financial_crew : Crew :=
  {| agents := [financial_analyst; verifier];
     tasks := [analyze_financial_document; verify_financial_analysis];
     process := sequential;
     crew_verbose := true |}.

(** ** The task body as a computation over the database and the event log *)

Record State : Type := {
  db : Database.Store;
  events : list event
}.

Definition M (A : Type) : Type := State -> outcome A * State.

Definition ret {A} (a : A) : M A := fun st => (Return a, st).

Definition bind {A B} (c : M A) (k : A -> M B) : M B :=
  fun st =>
    match c st with
    | (Return a, st') => k a st'
    | (Raise e, st') => (Raise e, st')
    end.

Definition lift_db {A} (op : Database.Store -> outcome A * Database.Store) : M A :=
  fun st =>
    let '(r, s') := op (db st) in
    (r, {| db := s'; events := events st |}).

Definition crew_kickoff (rt : Runtime) (crew : Crew) (inputs : gmap string string)
  : M CrewOutput :=
  fun st =>
    let '(r, tr) := kickoff rt crew inputs in
    (r, {| db := db st; events := (events st ++ tr)%list |}).

Declare Scope worker_scope.
Notation "'perform' x <- c ; k" := (bind c (fun x => k))
  (at level 10, x name, c at level 100, k at level 200) : worker_scope.
Notation "'exec' c ; k" := (bind c (fun _ => k))
  (at level 10, c at level 100, k at level 200) : worker_scope.
Local Open Scope worker_scope.

(** The [inputs] dictionary of [kickoff]. *)
Definition inputs_of (file_path query : string) : gmap string string :=
  <["query" := query]> (<["path" := file_path]> ∅).

Definition process_document (rt : Runtime) (eng : Database.Engine)
    (file_path query : string) : M string :=
  perform result <- crew_kickoff rt financial_crew (inputs_of file_path query);
  exec lift_db (Database.SessionLocal eng);
  let record :=
    {| Database.filename := file_path;
       Database.query := query;
       Database.result := str_output result |} in
  exec lift_db (Database.add eng record);
  exec lift_db (Database.commit eng);
  exec lift_db (Database.close eng);
  ret (str_output result).

(** The row that a successful run with result [v] appends to table [t]. *)
Definition row_of (eng : Database.Engine) (k : Z)
    (file_path query v : string) : Database.Row :=
  {| Database.id := k;
     Database.record :=
       {| Database.filename := file_path;
          Database.query := query;
          Database.result := v |};
     Database.created_at := Database.utcnow eng |}.

(** The first exception the database operations raise on table [t], in
    program order: the session, [add], [commit] (by itself, or because the
    insert finds no key), [close]. *)
Definition first_fault (eng : Database.Engine) (t : list Database.Row) : option exn :=
  match Database.session_fault eng, Database.add_fault eng,
        Database.commit_fault eng with
  | Some e, _, _ => Some e
  | None, Some e, _ => Some e
  | None, None, Some e => Some e
  | None, None, None =>
      match Database.next_id eng t with
      | None => Some Database.database_full
      | Some _ => Database.close_fault eng
      end
  end.

Definition no_faults (now : nat) : Database.Engine :=
  {| Database.session_fault := None; Database.add_fault := None;
     Database.commit_fault := None; Database.close_fault := None;
     Database.utcnow := now;
     Database.random_rowid := fun _ => None |}.


(** ** Traces of the sequential process *)

Lemma execute_tasks_sync_trace (rt : Runtime) (inputs : gmap string string)
    (ts : list Task) (i : nat) (outs : list string) (last_out : option string) :
  all_sync ts = true ->
  strictly_sequential None i (snd (execute_tasks rt inputs ts i outs [] last_out)) = true.
Proof.
  revert i outs last_out.
  induction ts as [|t rest IH]; intros i outs last_out Hsync; [reflexivity|].
  simpl in Hsync. apply andb_true_iff in Hsync as [Ht Hrest].
  apply negb_true_iff in Ht. simpl. rewrite Ht.
  destruct (execute rt t inputs outs) as [o|e]; simpl.
  - specialize (IH (S i) (outs ++ [o])%list (Some o) Hrest).
    destruct (execute_tasks rt inputs rest (S i) (outs ++ [o]) [] (Some o)) as [r tr2].
    simpl in *. rewrite !Nat.eqb_refl. exact IH.
  - rewrite !Nat.eqb_refl. reflexivity.
Qed.

Lemma started_after_finished (tr1 tr2 : list event) (j : nat) :
  forall running next,
    strictly_sequential running next (tr1 ++ Started j :: tr2)%list = true ->
    j = next \/ exists k, j = S k /\ In (Finished k) tr1.
Proof.
  induction tr1 as [|ev tr1 IH]; intros running next H; simpl in H.
  - destruct running; [discriminate|].
    apply andb_true_iff in H as [Hj _]. apply Nat.eqb_eq in Hj. left. exact Hj.
  - destruct ev as [i|i|i]; destruct running as [r|]; try discriminate.
    + apply andb_true_iff in H as [_ H].
      destruct (IH _ _ H) as [->|(k & -> & Hin)]; [left; reflexivity|].
      right. exists k. split; [reflexivity|right; exact Hin].
    + apply andb_true_iff in H as [_ H].
      destruct (IH _ _ H) as [->|(k & -> & Hin)].
      * right. exists i. split; [reflexivity|left; reflexivity].
      * right. exists k. split; [reflexivity|right; exact Hin].
    + apply andb_true_iff in H as [_ H].
      destruct tr1; discriminate.
Qed.

(** ** What a run of [process_document] does *)

Definition with_events (st : State) (s : Database.Store) (tr : list event) : State :=
  {| db := s; events := (events st ++ tr)%list |}.

Definition store (t : list Database.Row) (p : list Database.AnalysisResult)
  : Database.Store :=
  {| Database.table := t; Database.pending := p |}.

Lemma process_document_run (rt : Runtime) (eng : Database.Engine)
    (file_path query : string) (st : State) :
  process_document rt eng file_path query st =
  let t := Database.table (db st) in
  match kickoff rt financial_crew (inputs_of file_path query) with
  | (Raise e, tr) => (Raise e, with_events st (db st) tr)
  | (Return out, tr) =>
      let v := str_output out in
      let r := {| Database.filename := file_path;
                  Database.query := query;
                  Database.result := v |} in
      match Database.session_fault eng with
      | Some e => (Raise e, with_events st (db st) tr)
      | None =>
      match Database.add_fault eng with
      | Some e => (Raise e, with_events st (store t []) tr)
      | None =>
      match Database.commit_fault eng with
      | Some e => (Raise e, with_events st (store t [r]) tr)
      | None =>
      match Database.next_id eng t with
      | None => (Raise Database.database_full, with_events st (store t [r]) tr)
      | Some k =>
      match Database.close_fault eng with
      | Some e =>
          (Raise e, with_events st (store (t ++ [row_of eng k file_path query v]) []) tr)
      | None =>
          (Return v, with_events st (store (t ++ [row_of eng k file_path query v]) []) tr)
      end end end end end
  end.
Proof.
  unfold process_document, bind, crew_kickoff, lift_db, ret.
  destruct (kickoff rt financial_crew (inputs_of file_path query)) as [[out|e] tr];
    [|reflexivity].
  unfold Database.SessionLocal, Database.add, Database.commit, Database.close,
    Database.fault_or.
  destruct (Database.session_fault eng); [reflexivity|]. simpl.
  destruct (Database.add_fault eng); [reflexivity|]. simpl.
  destruct (Database.commit_fault eng); [reflexivity|]. simpl.
  destruct (Database.next_id eng (Database.table (db st))); [|reflexivity]. simpl.
  destruct (Database.close_fault eng); reflexivity.
Qed.

(** Case analysis on which database operation raises. *)
Ltac case_faults eng t :=
  destruct (Database.session_fault eng);
  [|destruct (Database.add_fault eng);
    [|destruct (Database.commit_fault eng);
      [|destruct (Database.next_id eng t);
        [destruct (Database.close_fault eng)|]]]].

Lemma process_document_events (rt : Runtime) (eng : Database.Engine)
    (file_path query : string) (st : State) :
  events (snd (process_document rt eng file_path query st))
  = (events st ++ snd (kickoff rt financial_crew (inputs_of file_path query)))%list.
Proof.
  rewrite process_document_run. cbv zeta.
  destruct (kickoff rt financial_crew (inputs_of file_path query)) as [[out|e] tr];
    [|reflexivity].
  case_faults eng (Database.table (db st)); reflexivity.
Qed.

Lemma process_document_table (rt : Runtime) (eng : Database.Engine)
    (file_path query : string) (st : State) :
  let run := process_document rt eng file_path query st in
  let t := Database.table (db st) in
  (exists v k,
     fst run = Return v
     /\ Database.next_id eng t = Some k
     /\ Database.table (db (snd run)) = (t ++ [row_of eng k file_path query v])%list
     /\ first_fault eng t = None)
  \/ (exists e, fst run = Raise e
                /\ (Database.table (db (snd run)) = t
                    \/ exists out tr k,
                         kickoff rt financial_crew (inputs_of file_path query)
                         = (Return out, tr)
                         /\ Database.session_fault eng = None
                         /\ Database.add_fault eng = None
                         /\ Database.commit_fault eng = None
                         /\ Database.next_id eng t = Some k
                         /\ Database.close_fault eng = Some e
                         /\ Database.table (db (snd run))
                            = (t ++ [row_of eng k file_path query (str_output out)])%list)).
Proof.
  cbv zeta. rewrite process_document_run. cbv zeta. unfold first_fault.
  destruct (kickoff rt financial_crew (inputs_of file_path query)) as [[out|e] tr].
  - destruct (Database.session_fault eng) eqn:E1;
      [right; eexists; split; [reflexivity|left; reflexivity]|].
    destruct (Database.add_fault eng) eqn:E2;
      [right; eexists; split; [reflexivity|left; reflexivity]|].
    destruct (Database.commit_fault eng) eqn:E3;
      [right; eexists; split; [reflexivity|left; reflexivity]|].
    destruct (Database.next_id eng (Database.table (db st))) as [k|] eqn:E4;
      [|right; eexists; split; [reflexivity|left; reflexivity]].
    destruct (Database.close_fault eng) eqn:E5.
    + right. eexists. split; [reflexivity|]. right. exists out, tr, k. repeat split.
    + left. exists (str_output out), k. repeat split.
  - right. eexists. split; [reflexivity|left; reflexivity].
Qed.

(** ** Keys *)

Lemma fold_max_ge (k : Z) (ks : list Z) (x : Z) :
  In x (k :: ks) -> (x <= fold_right Z.max k ks)%Z.
Proof.
  induction ks as [|y ks IH]; simpl.
  - intros [->|[]]. lia.
  - intros [Hx|[Hx|H]].
    + specialize (IH (or_introl Hx)). lia.
    + lia.
    + specialize (IH (or_intror H)). lia.
Qed.

(** A key given to a new row is not in use. *)
Lemma next_id_fresh (eng : Database.Engine) (t : list Database.Row) (k : Z) :
  Database.next_id eng t = Some k -> ~ In k (map Database.id t).
Proof.
  unfold Database.next_id. destruct (map Database.id t) as [|k0 ks]; [intros _ []|].
  cbv zeta. destruct (fold_right Z.max k0 ks <? Database.MAX_ROWID)%Z.
  - intros [= <-] Hin. apply fold_max_ge in Hin. lia.
  - destruct (Database.random_rowid eng (k0 :: ks)) as [c|]; [|discriminate].
    destruct ((1 <=? c)%Z && (c <=? Database.MAX_ROWID)%Z
              && negb (existsb (Z.eqb c) (k0 :: ks))) eqn:E; [|discriminate].
    intros [= <-] Hin. apply andb_true_iff in E as [_ E].
    apply negb_true_iff in E.
    assert (existsb (Z.eqb c) (k0 :: ks) = true); [|congruence].
    apply existsb_exists. exists c. split; [exact Hin|apply Z.eqb_refl].
Qed.

(** Below the largest rowid, the key given is above every key in use. *)
Lemma next_id_above (eng : Database.Engine) (t : list Database.Row) (k : Z) :
  Database.next_id eng t = Some k ->
  (forall r, In r t -> (Database.id r < Database.MAX_ROWID)%Z) ->
  forall r, In r t -> (Database.id r < k)%Z.
Proof.
  intros Hk Hbound r Hr. unfold Database.next_id in Hk.
  assert (Hin : In (Database.id r) (map Database.id t)) by (apply in_map; exact Hr).
  destruct (map Database.id t) as [|k0 ks] eqn:Hkeys; [destruct Hin|].
  cbv zeta in Hk.
  assert (Hmax : exists r0, In r0 t /\ Database.id r0 = fold_right Z.max k0 ks).
  { assert (Hm : In (fold_right Z.max k0 ks) (k0 :: ks)).
    { clear. induction ks as [|y ks IH]; [left; reflexivity|].
      simpl. destruct (Z.max_spec y (fold_right Z.max k0 ks)) as [[_ ->]|[_ ->]].
      - destruct IH as [IH|IH]; [left; exact IH|right; right; exact IH].
      - right. left. reflexivity. }
    rewrite <- Hkeys in Hm. apply in_map_iff in Hm as (r0 & Hr0 & Hin0).
    exists r0. split; [exact Hin0|exact Hr0]. }
  destruct Hmax as (r0 & Hr0 & Hid0). specialize (Hbound r0 Hr0).
  rewrite Hid0 in Hbound. apply Z.ltb_lt in Hbound. rewrite Hbound in Hk.
  injection Hk as <-. apply fold_max_ge in Hin. lia.
Qed.



(** ** Concrete runs *)

(** A runtime whose agents answer as scripted, whatever the context. *)
Definition scripted (answer : Task -> outcome string) : Runtime :=
  {| execute := fun t _ _ => answer t;
     run_hierarchical := fun _ _ => (Raise (PyError "RuntimeError" "no manager"), []) |}.

Definition answers_ok (t : Task) : outcome string :=
  if String.eqb (expected_output t) "Structured financial analysis report."
  then Return "Revenue is $100."
  else Return "Verified: revenue is $100.".

Definition analyst_fails (t : Task) : outcome string :=
  if String.eqb (expected_output t) "Structured financial analysis report."
  then Raise (PyError "RuntimeError" "LLM unavailable")
  else Return "Verified.".

Definition empty_state : State :=
  {| db := store [] []; events := [] |}.

Definition commit_fails (now : nat) : Database.Engine :=
  {| Database.session_fault := None; Database.add_fault := None;
     Database.commit_fault := Some (PyError "OperationalError" "database is locked");
     Database.close_fault := None;
     Database.utcnow := now;
     Database.random_rowid := fun _ => None |}.


Example run_ok :
  process_document (scripted answers_ok) (no_faults 7) "data/u.pdf" "What is the revenue?"
    empty_state
  = (Return "Verified: revenue is $100.",
     {| db := store [{| Database.id := 1%Z;
                        Database.record :=
                          {| Database.filename := "data/u.pdf";
                             Database.query := "What is the revenue?";
                             Database.result := "Verified: revenue is $100." |};
                        Database.created_at := 7 |}] [];
        events := [Started 0; Finished 0; Started 1; Finished 1] |}).
Proof. reflexivity. Qed.

Example run_analyst_fails :
  process_document (scripted analyst_fails) (no_faults 7) "data/u.pdf" "q" empty_state
  = (Raise (PyError "RuntimeError" "LLM unavailable"),
     {| db := store [] []; events := [Started 0; Failed 0] |}).
Proof. reflexivity. Qed.

Example run_commit_fails :
  fst (process_document (scripted answers_ok) (commit_fails 7) "data/u.pdf" "q" empty_state)
  = Raise (PyError "OperationalError" "database is locked").
Proof. reflexivity. Qed.

(** With both tasks asynchronous the same runner starts the second task
    while the first is still running. *)
Definition async_of (t : Task) : Task :=
  {| description := description t; expected_output := expected_output t;
     agent := agent t; tools := tools t; async_execution := true |}.

Example async_tasks_overlap :
  snd (execute_tasks (scripted answers_ok) ∅
         (map async_of (tasks financial_crew)) 0 [] [] None)
  = [Started 0; Started 1; Finished 0; Finished 1]
  /\ strictly_sequential None 0 [Started 0; Started 1; Finished 0; Finished 1] = false.
Proof. split; reflexivity. Qed.

(** ** The claims about the worker *)

(** C4.  Whenever the crew returns its output and no database step
    raises, [process_document] returns the output's string, and by then the
    record (file path, query, that string) is inserted and committed.
    Conversely a run that returns has met no database fault and has the
    record in the table.  When the crew has returned and a database step
    raises [e], the task raises [e] (nothing catches it), so the job is
    recorded as failed; if it is the commit that raises, nothing is
    written. *)
Theorem process_document_commits_then_returns
    (rt : Runtime) (eng : Database.Engine) (file_path query : string) (st : State) :
  let run := process_document rt eng file_path query st in
  let t := Database.table (db st) in
  (forall out tr,
     kickoff rt financial_crew (inputs_of file_path query) = (Return out, tr) ->
     first_fault eng t = None ->
     exists k,
       Database.next_id eng t = Some k
       /\ fst run = Return (str_output out)
       /\ Database.table (db (snd run))
          = (t ++ [row_of eng k file_path query (str_output out)])%list)
  /\ (forall v, fst run = Return v ->
        first_fault eng t = None
        /\ exists k,
             Database.next_id eng t = Some k
             /\ Database.table (db (snd run))
                = (t ++ [row_of eng k file_path query v])%list)
  /\ (forall out tr e,
        kickoff rt financial_crew (inputs_of file_path query) = (Return out, tr) ->
        first_fault eng t = Some e ->
        fst run = Raise e
        /\ forall exception_to_python,
             Celery.state (Celery.meta_of exception_to_python (fst run)) = "FAILURE")
  /\ (forall out tr e,
        kickoff rt financial_crew (inputs_of file_path query) = (Return out, tr) ->
        Database.session_fault eng = None ->
        Database.add_fault eng = None ->
        Database.commit_fault eng = Some e ->
        fst run = Raise e /\ Database.table (db (snd run)) = t).
Proof.
  cbv zeta. rewrite process_document_run. cbv zeta. unfold first_fault.
  split; [|split; [|split]].
  - intros out tr -> Hf.
    case_faults eng (Database.table (db st)); try discriminate.
    eexists. repeat split.
  - intros v.
    destruct (kickoff rt financial_crew (inputs_of file_path query)) as [[out|e0] tr0];
      [|discriminate].
    case_faults eng (Database.table (db st)); try discriminate.
    intros [= <-]. split; [reflexivity|]. eexists. split; reflexivity.
  - intros out tr e -> Hf.
    case_faults eng (Database.table (db st)); try discriminate;
      injection Hf as <-; split; reflexivity.
  - intros out tr e -> -> -> ->. split; reflexivity.
Qed.



(** C7.  The crew of [process_document] runs its two tasks by the
    sequential process, both synchronously; in every run the events are
    strictly sequential: no task starts while another is running, and the
    verify task (index 1) starts only after the analyze task (index 0) has
    finished. *)
Theorem pipeline_strictly_sequential
    (rt : Runtime) (eng : Database.Engine) (file_path query : string) (st : State) :
  tasks financial_crew = [analyze_financial_document; verify_financial_analysis]
  /\ process financial_crew = sequential
  /\ all_sync (tasks financial_crew) = true
  /\ exists tr,
       events (snd (process_document rt eng file_path query st))
       = (events st ++ tr)%list
       /\ strictly_sequential None 0 tr = true
       /\ (forall tr1 tr2, tr = (tr1 ++ Started 1 :: tr2)%list -> In (Finished 0) tr1).
Proof.
  split; [reflexivity|]. split; [reflexivity|]. split; [reflexivity|].
  exists (snd (kickoff rt financial_crew (inputs_of file_path query))).
  split; [apply process_document_events|].
  assert (Hseq : strictly_sequential None 0
            (snd (kickoff rt financial_crew (inputs_of file_path query))) = true).
  { unfold kickoff. simpl process.
    pose proof (execute_tasks_sync_trace rt (inputs_of file_path query)
                  (tasks financial_crew) 0 [] None eq_refl) as H.
    destruct (execute_tasks rt (inputs_of file_path query) (tasks financial_crew)
                0 [] [] None) as [r tr].
    exact H. }
  split; [exact Hseq|].
  intros tr1 tr2 Htr. rewrite Htr in Hseq.
  destruct (started_after_finished tr1 tr2 1 None 0 Hseq) as [H|(k & [= <-] & Hin)];
    [discriminate|exact Hin].
Qed.

End Worker.

(* ===================================================================== *)
(** * os.path (POSIX) as used by main.py                                  *)
(* ===================================================================== *)

Module OsPath.

Local Open Scope Z_scope.

(** [s.rfind(c)] for a one-character [c]: the last index of [c], or [-1]. *)
Fixpoint rfind (c : ascii) (s : string) : Z :=
  match s with
  | EmptyString => -1
  | String a t =>
      let r := rfind c t in
      if 0 <=? r then r + 1
      else if Ascii.eqb a c then 0 else -1
  end.

(** [s[n:]] and [s[:n]] *)
Fixpoint drop (n : nat) (s : string) : string :=
  match n, s with
  | O, _ => s
  | S _, EmptyString => EmptyString
  | S n', String _ t => drop n' t
  end.

Fixpoint take (n : nat) (s : string) : string :=
  match n, s with
  | O, _ => EmptyString
  | S _, EmptyString => EmptyString
  | S n', String a t => String a (take n' t)
  end.

(** The loop of [genericpath._splitext] that skips the leading dots of the
    last path component:
    [while filenameIndex < dotIndex:
       if p[filenameIndex:filenameIndex+1] != extsep: return (split)
       filenameIndex += 1].
    [steps] is [dotIndex - filenameIndex]; the result tells whether the loop
    returned the split. *)
Fixpoint finds_name_char (p : string) (filenameIndex : nat) (steps : nat) : bool :=
  match steps with
  | O => false
  | S k =>
      match String.get filenameIndex p with
      | Some c =>
          if Ascii.eqb c "." then finds_name_char p (S filenameIndex) k else true
      | None => true
      end
  end.

(** [os.path.splitext(p)] *)
Definition splitext (p : string) : string * string :=
  let sepIndex := rfind "/" p in
  let dotIndex := rfind "." p in
  if sepIndex <? dotIndex then
    if finds_name_char p (Z.to_nat (sepIndex + 1)) (Z.to_nat (dotIndex - (sepIndex + 1)))
    then (take (Z.to_nat dotIndex) p, drop (Z.to_nat dotIndex) p)
    else (p, EmptyString)
  else (p, EmptyString).

(** [os.path.join(a, b)] *)
Definition join (a b : string) : string :=
  if startswith b "/" then b
  else if negb (truthy a) || endswith a "/" then (a ++ b)%string
  else (a ++ "/" ++ b)%string.

(** ** Specification-side definitions *)

Fixpoint has_char (c : ascii) (s : string) : bool :=
  match s with
  | EmptyString => false
  | String a t => Ascii.eqb a c || has_char c t
  end.

Fixpoint all_chars (P : ascii -> bool) (s : string) : bool :=
  match s with
  | EmptyString => true
  | String a t => P a && all_chars P t
  end.

(** ** Facts about [rfind] and slices *)

Lemma rfind_ge (c : ascii) (s : string) : -1 <= rfind c s.
Proof.
  induction s as [|a t IH]; simpl; [lia|].
  destruct (0 <=? rfind c t) eqn:H; [apply Z.leb_le in H; lia|].
  destruct (Ascii.eqb a c); lia.
Qed.

Lemma rfind_absent (c : ascii) (s : string) :
  has_char c s = false -> rfind c s = -1.
Proof.
  induction s as [|a t IH]; simpl; [reflexivity|].
  intros H. apply orb_false_iff in H as [Ha Ht].
  rewrite (IH Ht), Ha. reflexivity.
Qed.

Lemma rfind_neg_absent (c : ascii) (s : string) :
  rfind c s < 0 -> has_char c s = false.
Proof.
  induction s as [|a t IH]; simpl; [reflexivity|].
  pose proof (rfind_ge c t).
  destruct (0 <=? rfind c t) eqn:H0; [apply Z.leb_le in H0; lia|].
  apply Z.leb_gt in H0.
  destruct (Ascii.eqb a c); [lia|]. intros _. simpl. apply IH. exact H0.
Qed.

Lemma rfind_app (c : ascii) (s t : string) :
  rfind c (s ++ t)%string
  = if 0 <=? rfind c t then Z.of_nat (String.length s) + rfind c t
    else rfind c s.
Proof.
  induction s as [|a s IH].
  - rewrite Tools.app_empty_l. simpl. pose proof (rfind_ge c t).
    destruct (0 <=? rfind c t) eqn:H0; [lia|]. apply Z.leb_gt in H0. lia.
  - rewrite Tools.app_cons. simpl rfind. rewrite IH.
    destruct (0 <=? rfind c t) eqn:H0.
    + apply Z.leb_le in H0.
      replace (0 <=? Z.of_nat (String.length s) + rfind c t) with true
        by (symmetry; apply Z.leb_le; lia).
      simpl String.length. lia.
    + reflexivity.
Qed.

Lemma drop_at_rfind (c : ascii) (s : string) (i : nat) :
  rfind c s = Z.of_nat i ->
  exists r, drop i s = String c r /\ has_char c r = false.
Proof.
  revert i. induction s as [|a t IH]; intros i; simpl; [lia|].
  pose proof (rfind_ge c t).
  destruct (0 <=? rfind c t) eqn:H0.
  - apply Z.leb_le in H0. intros Hi.
    destruct i as [|i']; [lia|]. simpl. apply IH. lia.
  - apply Z.leb_gt in H0.
    destruct (Ascii.eqb a c) eqn:Ha; [|lia].
    intros Hi. destruct i as [|i']; [|lia].
    apply Ascii.eqb_eq in Ha. subst a.
    exists t. split; [reflexivity|]. apply rfind_neg_absent. exact H0.
Qed.

Lemma drop_past_rfind (c : ascii) (s : string) (i : nat) :
  rfind c s < Z.of_nat i -> has_char c (drop i s) = false.
Proof.
  revert i. induction s as [|a t IH]; intros i Hi.
  - destruct i; reflexivity.
  - destruct i as [|i'].
    + simpl drop. apply rfind_neg_absent. lia.
    + simpl drop. apply IH. simpl in Hi. pose proof (rfind_ge c t).
      destruct (0 <=? rfind c t) eqn:H0; [lia|].
      apply Z.leb_gt in H0. lia.
Qed.

Lemma drop_app_length (s t : string) : drop (String.length s) (s ++ t)%string = t.
Proof. induction s as [|a s IH]; [destruct t; reflexivity|]. exact IH. Qed.

Lemma has_char_all_chars (P : ascii -> bool) (c : ascii) (s : string) :
  all_chars P s = true -> P c = false -> has_char c s = false.
Proof.
  intros Hall Hc. induction s as [|a t IH]; [reflexivity|].
  simpl in *. apply andb_true_iff in Hall as [Ha Ht].
  rewrite (IH Ht), orb_false_r.
  destruct (Ascii.eqb a c) eqn:Hac; [|reflexivity].
  apply Ascii.eqb_eq in Hac. congruence.
Qed.

(** The extension returned by [splitext] is empty, or a dot followed by
    characters that are neither dots nor slashes. *)
Lemma splitext_ext_shape (p : string) :
  snd (splitext p) = EmptyString
  \/ exists r, snd (splitext p) = String "." r
               /\ has_char "." r = false /\ has_char "/" r = false.
Proof.
  unfold splitext.
  destruct (rfind "/" p <? rfind "." p) eqn:Hlt; [|left; reflexivity].
  destruct (finds_name_char _ _ _); [|left; reflexivity].
  right. simpl snd. apply Z.ltb_lt in Hlt.
  pose proof (rfind_ge "/" p) as Hsep.
  destruct (drop_at_rfind "." p (Z.to_nat (rfind "." p)) ltac:(lia)) as (r & Hr & Hdot).
  exists r. split; [exact Hr|]. split; [exact Hdot|].
  assert (H : has_char "/" (drop (Z.to_nat (rfind "." p)) p) = false)
    by (apply drop_past_rfind; lia).
  rewrite Hr in H. simpl in H. exact H.
Qed.

End OsPath.

(* ===================================================================== *)
(** * main.py                                                             *)
(* ===================================================================== *)

Module Main.

Import Celery OsPath.

Definition UPLOAD_DIR : string := "data".

(** The uploaded file: its client-side name and what [await read()] gives. *)
Record UploadFile : Type := {
  filename : option string;
  read : outcome string
}.

(** What can go wrong in [with open(file_path, "wb") as f: f.write(contents)]:
    [open] raises and nothing is created; or the file has been created
    (or truncated) and writing or closing it raises, leaving [remains] in
    it. *)
Inductive FileFault : Type :=
| OpenFails (e : exn)
| WriteFails (e : exn) (remains : string).

(** What the surroundings decide for one request: the value of
    [uuid.uuid4()], the fault (if any) of opening and writing the local
    file, the id Celery gives the submitted task, and the exception (if any)
    of the broker. *)
Record Env : Type := {
  uuid4 : string;
  open_fault : option FileFault;
  new_task_id : string;
  broker_fault : option exn
}.

(** A submitted [process_document] task. *)
Record Job : Type := {
  task_id : string;
  job_file_path : string;
  job_query : string
}.

(** The upload directory (path to contents) and the broker's queue. *)
Record State : Type := {
  files : gmap string string;
  broker : list Job
}.

Record JSONResponse : Type := {
  status_code : nat;
  content : list (string * pyobj)
}.

Definition save_upload_file (env : Env) (upload_file : UploadFile) (st : State)
  : outcome string * State :=
  let body : outcome string * State :=
    let file_id := uuid4 env in
    match filename upload_file with
    | None =>
        (Raise (PyError "TypeError"
                  "expected str, bytes or os.PathLike object, not NoneType"), st)
    | Some name =>
        let file_extension := snd (splitext name) in
        let file_path := join UPLOAD_DIR (file_id ++ file_extension) in
        match read upload_file with
        | Raise e => (Raise e, st)
        | Return contents =>
            match open_fault env with
            | Some (OpenFails e) => (Raise e, st)
            | Some (WriteFails e remains) =>
                (Raise e,
                 {| files := <[file_path := remains]> (files st);
                    broker := broker st |})
            | None =>
                (Return file_path,
                 {| files := <[file_path := contents]> (files st);
                    broker := broker st |})
            end
        end
    end in
  match body with
  | (Return file_path, st') => (Return file_path, st')
  | (Raise e, st') =>
      (Raise (HTTPException 500 ("File save failed: " ++ str e)), st')
  end.

(** [process_document.delay(file_path, query)] *)
Definition delay (env : Env) (file_path query : string) (st : State)
  : outcome string * State :=
  match broker_fault env with
  | Some e => (Raise e, st)
  | None =>
      (Return (new_task_id env),
       {| files := files st;
          broker := (broker st ++
                     [{| task_id := new_task_id env;
                         job_file_path := file_path;
                         job_query := query |}])%list |})
  end.

Definition analyze_document (env : Env) (file : UploadFile) (query : string)
    (st : State) : outcome JSONResponse * State :=
  let body : outcome JSONResponse * State :=
    match save_upload_file env file st with
    | (Raise e, st') => (Raise e, st')
    | (Return file_path, st') =>
        match delay env file_path query st' with
        | (Raise e, st'') => (Raise e, st'')
        | (Return id, st'') =>
            (Return
               {| status_code := 200;
                  content :=
                    [("status", PyStr "processing");
                     ("task_id", PyStr id);
                     ("message", PyStr "Analysis started in background");
                     ("file_path", PyStr file_path)] |},
             st'')
        end
    end in
  match body with
  | (Return r, st') => (Return r, st')
  | (Raise e, st') => (Raise (HTTPException 500 (str e)), st')
  end.

(** [str(x)] of a result value. *)
Definition str_obj (x : pyobj) : string :=
  match x with
  | PyNone => "None"
  | PyStr s => s
  | PyExc e => str e
  end.

(** [get_status(task_id)], on one reading of the result backend. *)
Definition get_status (backend : gmap string TaskMeta) (task_id : string)
  : list (string * pyobj) :=
  let task_result := AsyncResult backend task_id in
  if String.eqb (state task_result) "PENDING" then
    [("status", PyStr "pending")]
  else if String.eqb (state task_result) "SUCCESS" then
    [("status", PyStr "completed"); ("result", result task_result)]
  else if String.eqb (state task_result) "FAILURE" then
    [("status", PyStr "failed"); ("error", PyStr (str_obj (result task_result)))]
  else
    [("status", PyStr (state task_result))].

(** ** Specification-side definitions *)

(** The characters of [str(uuid.uuid4())]: lower-case hexadecimal digits and
    hyphens, 36 of them. *)
Definition is_hex_or_dash (c : ascii) : bool :=
  let n := nat_of_ascii c in
  (((48 <=? n) && (n <=? 57)) || ((97 <=? n) && (n <=? 102)) || (n =? 45))%nat.

Definition is_uuid_str (u : string) : bool :=
  (String.length u =? 36)%nat && all_chars is_hex_or_dash u.

(** The value under a key of a response dictionary. *)
Fixpoint dict_get (k : string) (d : list (string * pyobj)) : option pyobj :=
  match d with
  | [] => None
  | (k', v) :: rest => if String.eqb k k' then Some v else dict_get k rest
  end.

(** A response is a well-formed status object when its keys are distinct
    and [status] holds a string. *)
Definition well_formed_status (d : list (string * pyobj)) : Prop :=
  NoDup (map fst d) /\ exists s, dict_get "status" d = Some (PyStr s).

(** [t] occurs inside [s]. *)
Definition surfaces (s t : string) : Prop :=
  exists pre post, s = pre ++ t ++ post.

(** The local path of an upload named [name] under the generated id [u]. *)
Definition upload_path (u name : string) : string :=
  "data/" ++ u ++ snd (splitext name).


(** ** The generated path *)

Lemma hex_or_dash_not_dot (c : ascii) :
  is_hex_or_dash c = true -> Ascii.eqb c "." = false /\ Ascii.eqb c "/" = false.
Proof.
  intros H. split.
  - destruct (Ascii.eqb c ".") eqn:E; [|reflexivity].
    apply Ascii.eqb_eq in E. subst c. discriminate.
  - destruct (Ascii.eqb c "/") eqn:E; [|reflexivity].
    apply Ascii.eqb_eq in E. subst c. discriminate.
Qed.

Lemma uuid_shape (u : string) :
  is_uuid_str u = true ->
  String.length u = 36%nat
  /\ has_char "." u = false /\ has_char "/" u = false
  /\ exists c u', u = String c u' /\ is_hex_or_dash c = true.
Proof.
  unfold is_uuid_str. intros H. apply andb_true_iff in H as [Hlen Hall].
  apply Nat.eqb_eq in Hlen.
  split; [exact Hlen|].
  split; [apply (has_char_all_chars _ _ _ Hall); reflexivity|].
  split; [apply (has_char_all_chars _ _ _ Hall); reflexivity|].
  destruct u as [|c u']; [discriminate|].
  exists c, u'. split; [reflexivity|].
  simpl in Hall. apply andb_true_iff in Hall as [Hc _]. exact Hc.
Qed.

Lemma join_upload (u ext : string) :
  is_uuid_str u = true -> join UPLOAD_DIR (u ++ ext) = "data/" ++ u ++ ext.
Proof.
  intros Hu. destruct (uuid_shape u Hu) as (_ & _ & _ & c & u' & -> & Hc).
  destruct (hex_or_dash_not_dot c Hc) as [_ Hslash].
  unfold join. rewrite Tools.app_cons. simpl startswith.
  rewrite Hslash. reflexivity.
Qed.

Lemma splitext_upload_path (u name : string) :
  is_uuid_str u = true ->
  snd (splitext (upload_path u name)) = snd (splitext name).
Proof.
  intros Hu. destruct (uuid_shape u Hu) as (Hlen & Hdot & Hsep & c & u' & Hcu & Hc).
  destruct (hex_or_dash_not_dot c Hc) as [Hcdot _].
  unfold upload_path.
  destruct (splitext_ext_shape name) as [->|(r & -> & Hrdot & Hrsep)].
  - rewrite Tools.app_empty_r. unfold splitext.
    rewrite !rfind_app, (rfind_absent _ _ Hdot), (rfind_absent _ _ Hsep).
    reflexivity.
  - unfold splitext.
    assert (Hd : rfind "." ("data/" ++ u ++ String "." r) = 41%Z).
    { rewrite !rfind_app. simpl rfind. rewrite (rfind_absent _ _ Hrdot), Hlen.
      reflexivity. }
    assert (Hs : rfind "/" ("data/" ++ u ++ String "." r) = 4%Z).
    { rewrite !rfind_app. simpl rfind.
      rewrite (rfind_absent _ _ Hrsep), (rfind_absent _ _ Hsep). reflexivity. }
    rewrite Hd, Hs.
    change (4 <? 41)%Z with true. cbv iota.
    change (Z.to_nat (4 + 1)) with 5%nat.
    change (Z.to_nat (41 - (4 + 1))) with 36%nat.
    change (Z.to_nat 41) with (5 + 36)%nat.
    assert (Hfind : finds_name_char ("data/" ++ u ++ String "." r) 5 36 = true).
    { rewrite Hcu. change (finds_name_char _ 5 36)
        with (if Ascii.eqb c "."
              then finds_name_char ("data/" ++ String c u' ++ String "." r) 6 35
              else true).
      rewrite Hcdot. reflexivity. }
    rewrite Hfind. cbn [snd].
    change (drop (5 + 36) ("data/" ++ u ++ String "." r))
      with (drop 36 (u ++ String "." r)).
    rewrite <- Hlen. apply drop_app_length.
Qed.

Lemma upload_path_inj (u1 u2 name1 name2 : string) :
  String.length u1 = String.length u2 ->
  upload_path u1 name1 = upload_path u2 name2 -> u1 = u2.
Proof.
  unfold upload_path. intros Hlen H.
  apply (String.app_inj "data/") in H.
  revert u2 Hlen H. induction u1 as [|a u1 IH]; intros [|b u2] Hlen H;
    try discriminate; [reflexivity|].
  rewrite !Tools.app_cons in H. injection H as -> H.
  f_equal. apply IH; [simpl in Hlen; lia|exact H].
Qed.


(** ** Concrete requests *)

Definition sample_env : Env :=
  {| uuid4 := "123e4567-e89b-42d3-a456-426614174000";
     open_fault := None;
     new_task_id := "7c9e6679-7425-40de-944b-e07fc1f90ae7";
     broker_fault := None |}.

Definition disk_full_env : Env :=
  {| uuid4 := "123e4567-e89b-42d3-a456-426614174000";
     open_fault := Some (WriteFails (PyError "OSError" "No space left on device") "%PDF");
     new_task_id := "7c9e6679-7425-40de-944b-e07fc1f90ae7";
     broker_fault := None |}.

Definition sample_upload : UploadFile :=
  {| filename := Some "annual report.final.pdf";
     read := Return "%PDF-1.7" |}.

Definition empty_state : State := {| files := ∅; broker := [] |}.

Example analyze_sample :
  fst (analyze_document sample_env sample_upload "What is the revenue?" empty_state)
  = Return
      {| status_code := 200;
         content :=
           [("status", PyStr "processing");
            ("task_id", PyStr "7c9e6679-7425-40de-944b-e07fc1f90ae7");
            ("message", PyStr "Analysis started in background");
            ("file_path", PyStr "data/123e4567-e89b-42d3-a456-426614174000.pdf")] |}.
Proof. reflexivity. Qed.

Example analyze_disk_full :
  analyze_document disk_full_env sample_upload "q" empty_state
  = (Raise (HTTPException 500 "500: File save failed: No space left on device"),
     {| files := <["data/123e4567-e89b-42d3-a456-426614174000.pdf" := "%PDF"]> ∅;
        broker := [] |}).
Proof. reflexivity. Qed.

Example status_unknown : get_status ∅ "no-such-task" = [("status", PyStr "pending")].
Proof. reflexivity. Qed.

Example status_started :
  get_status (mark_started "t1" ∅) "t1" = [("status", PyStr "STARTED")].
Proof. reflexivity. Qed.

(** ** The claims about the front door *)

Lemma get_status_unfold (backend : gmap string TaskMeta) (task_id : string) :
  get_status backend task_id
  = if String.eqb (state (AsyncResult backend task_id)) "PENDING" then
      [("status", PyStr "pending")]
    else if String.eqb (state (AsyncResult backend task_id)) "SUCCESS" then
      [("status", PyStr "completed"); ("result", result (AsyncResult backend task_id))]
    else if String.eqb (state (AsyncResult backend task_id)) "FAILURE" then
      [("status", PyStr "failed");
       ("error", PyStr (str_obj (result (AsyncResult backend task_id))))]
    else [("status", PyStr (state (AsyncResult backend task_id)))].
Proof. reflexivity. Qed.

(** C1.  For every task id, [get_status] answers with one of four status
    objects, chosen by the state read from the backend: pending (also for
    an id the backend does not know), completed with the result, failed
    with the stringified error, or the raw state label; the answer always
    has distinct keys and a string under [status]. *)
Theorem get_status_cases (backend : gmap string TaskMeta) (task_id : string) :
  let m := AsyncResult backend task_id in
  (state m = "PENDING" ->
     get_status backend task_id = [("status", PyStr "pending")])
  /\ (backend !! task_id = None ->
        get_status backend task_id = [("status", PyStr "pending")])
  /\ (state m = "SUCCESS" ->
        get_status backend task_id
        = [("status", PyStr "completed"); ("result", result m)])
  /\ (state m = "FAILURE" ->
        get_status backend task_id
        = [("status", PyStr "failed"); ("error", PyStr (str_obj (result m)))])
  /\ (state m <> "PENDING" -> state m <> "SUCCESS" -> state m <> "FAILURE" ->
        get_status backend task_id = [("status", PyStr (state m))])
  /\ well_formed_status (get_status backend task_id).
Proof.
  cbv zeta. rewrite get_status_unfold.
  split; [intros ->; reflexivity|].
  split; [intros H; unfold AsyncResult; rewrite H; reflexivity|].
  split; [intros ->; reflexivity|].
  split; [intros ->; reflexivity|].
  split.
  { intros H1 H2 H3.
    apply String.eqb_neq in H1, H2, H3. rewrite H1, H2, H3. reflexivity. }
  unfold well_formed_status.
  destruct (String.eqb _ "PENDING");
    [|destruct (String.eqb _ "SUCCESS"); [|destruct (String.eqb _ "FAILURE")]];
    (split; [apply (bool_decide_unpack _); vm_compute; reflexivity
           |eexists; reflexivity]).
Qed.

(** The exception raised inside the [try] of [save_upload_file], if any. *)
Definition save_fault (env : Env) (file : UploadFile) : option exn :=
  match filename file with
  | None =>
      Some (PyError "TypeError"
              "expected str, bytes or os.PathLike object, not NoneType")
  | Some _ =>
      match read file with
      | Raise e => Some e
      | Return _ =>
          match open_fault env with
          | Some (OpenFails e) => Some e
          | Some (WriteFails e _) => Some e
          | None => None
          end
      end
  end.

Lemma surfaces_suffix (pre t : string) : surfaces (pre ++ t) t.
Proof. exists pre, "". rewrite Tools.app_empty_r. reflexivity. Qed.

(** The [file_path] entry of a successful response. *)
Definition content_path (r : outcome JSONResponse) : option pyobj :=
  match r with
  | Return resp => dict_get "file_path" (content resp)
  | Raise _ => None
  end.

Lemma analyze_document_ok
    (env : Env) (file : UploadFile) (query : string) (st : State)
    (name contents : string) :
  is_uuid_str (uuid4 env) = true ->
  filename file = Some name -> read file = Return contents ->
  open_fault env = None -> broker_fault env = None ->
  analyze_document env file query st
  = (Return
       {| status_code := 200;
          content :=
            [("status", PyStr "processing");
             ("task_id", PyStr (new_task_id env));
             ("message", PyStr "Analysis started in background");
             ("file_path", PyStr (upload_path (uuid4 env) name))] |},
     {| files := <[upload_path (uuid4 env) name := contents]> (files st);
        broker := (broker st ++
                   [{| task_id := new_task_id env;
                       job_file_path := upload_path (uuid4 env) name;
                       job_query := query |}])%list |}).
Proof.
  intros Hu Hname Hread Hopen Hbroker.
  unfold analyze_document, save_upload_file, delay.
  rewrite Hname, Hread, Hopen, Hbroker. cbv zeta.
  rewrite (join_upload _ _ Hu). reflexivity.
Qed.

(** C6.  When [uuid4] yields a UUID string: an upload named [name] is
    written to [data/<uuid><ext>], [ext] being the extension of [name], a
    job for that path and the query is queued, and the response is
    [{status: processing, task_id, message, file_path}]; the saved path has
    the extension of [name], and two requests get the same path only under
    the same UUID.  When saving raises [e], or saving succeeds and the
    submission raises [e], the request fails with status 500 and a detail
    that contains [str(e)], and no job is queued; no failure has another
    status.  A save that fails before the file is created leaves the upload
    directory as it was; one that fails while writing leaves the file
    behind. *)
Theorem analyze_document_saves_and_submits
    (env : Env) (file : UploadFile) (query : string) (st : State) :
  is_uuid_str (uuid4 env) = true ->
  (forall name contents,
     filename file = Some name -> read file = Return contents ->
     open_fault env = None -> broker_fault env = None ->
     analyze_document env file query st
     = (Return
          {| status_code := 200;
             content :=
               [("status", PyStr "processing");
                ("task_id", PyStr (new_task_id env));
                ("message", PyStr "Analysis started in background");
                ("file_path", PyStr (upload_path (uuid4 env) name))] |},
        {| files := <[upload_path (uuid4 env) name := contents]> (files st);
           broker := (broker st ++
                      [{| task_id := new_task_id env;
                          job_file_path := upload_path (uuid4 env) name;
                          job_query := query |}])%list |}))
  /\ (forall name,
        snd (splitext (upload_path (uuid4 env) name)) = snd (splitext name))
  /\ (forall env' name name',
        is_uuid_str (uuid4 env') = true ->
        upload_path (uuid4 env) name = upload_path (uuid4 env') name' ->
        uuid4 env = uuid4 env')
  /\ (forall e, save_fault env file = Some e ->
        fst (analyze_document env file query st)
        = Raise (HTTPException 500 ("500: File save failed: " ++ str e))
        /\ surfaces ("500: File save failed: " ++ str e) (str e)
        /\ broker (snd (analyze_document env file query st)) = broker st)
  /\ (filename file = None \/ (exists e, read file = Raise e)
      \/ (exists e, open_fault env = Some (OpenFails e)) ->
      snd (analyze_document env file query st) = st)
  /\ (forall name contents e remains,
        filename file = Some name -> read file = Return contents ->
        open_fault env = Some (WriteFails e remains) ->
        snd (analyze_document env file query st)
        = {| files := <[upload_path (uuid4 env) name := remains]> (files st);
             broker := broker st |})
  /\ (forall e, save_fault env file = None -> broker_fault env = Some e ->
        fst (analyze_document env file query st) = Raise (HTTPException 500 (str e))
        /\ broker (snd (analyze_document env file query st)) = broker st)
  /\ (forall x, fst (analyze_document env file query st) = Raise x ->
        exists detail, x = HTTPException 500 detail).
Proof.
  intros Hu.
  split.
  { intros name contents. apply analyze_document_ok. exact Hu. }
  split; [intros name; apply splitext_upload_path, Hu|].
  split.
  { intros env' name name' Hu' Heq.
    apply (upload_path_inj _ _ name name'); [|exact Heq].
    destruct (uuid_shape _ Hu) as [-> _]. destruct (uuid_shape _ Hu') as [-> _].
    reflexivity. }
  split.
  { intros e He. unfold analyze_document, save_upload_file. unfold save_fault in He.
    destruct (filename file) as [name|];
      [|injection He as <-; repeat split; apply surfaces_suffix].
    destruct (read file) as [contents|e'];
      [|injection He as <-; repeat split; apply surfaces_suffix].
    destruct (open_fault env) as [[e'|e' remains]|]; [| |discriminate];
      injection He as <-; repeat split; apply surfaces_suffix. }
  split.
  { unfold analyze_document, save_upload_file.
    intros [Hn|[[e He]|[e He]]].
    - rewrite Hn. reflexivity.
    - destruct (filename file); rewrite ?He; reflexivity.
    - destruct (filename file); [|reflexivity].
      destruct (read file); [|reflexivity]. rewrite He. reflexivity. }
  split.
  { intros name contents e remains Hn Hr Ho.
    unfold analyze_document, save_upload_file. rewrite Hn, Hr, Ho. cbv zeta.
    rewrite (join_upload _ _ Hu). reflexivity. }
  split.
  { intros e Hsave Hbroker.
    unfold analyze_document, save_upload_file, delay. unfold save_fault in Hsave.
    destruct (filename file) as [name|]; [|discriminate].
    destruct (read file) as [contents|e']; [|discriminate].
    destruct (open_fault env) as [[e'|e' remains]|]; [discriminate|discriminate|].
    rewrite Hbroker. split; reflexivity. }
  intros x. unfold analyze_document.
  destruct (save_upload_file env file st) as [[p|e] st1].
  - destruct (delay env p query st1) as [[id|e] st2]; simpl; [discriminate|].
    intros [= <-]. eexists. reflexivity.
  - simpl. intros [= <-]. eexists. reflexivity.
Qed.

Lemma analyze_document_saves_and_submits_witness :
  is_uuid_str (uuid4 sample_env) = true
  /\ snd (splitext (upload_path (uuid4 sample_env) "annual report.final.pdf")) = ".pdf".
Proof.
  split; [reflexivity|].
  exact (proj1 (proj2 (analyze_document_saves_and_submits sample_env sample_upload
                         "What is the revenue?" empty_state eq_refl))
           "annual report.final.pdf").
Defined.

(** C9.  Whenever the crew returns its output and no database step
    raises, the run returns the output's string and appends a row that
    holds, as its filename, the file path the worker was called with, the
    query, and that same string as its result; and the row of any run that
    returns [v] holds that path, the query and [v].  The path the front
    door passes to the worker is the generated [data/<uuid><ext>]: of the
    client's file name only the extension enters it. *)
Theorem record_holds_server_path_and_result
    (rt : CrewAI.Runtime) (eng : Database.Engine) (file_path query : string)
    (wst : Worker.State) :
  (forall out tr,
     CrewAI.kickoff rt Worker.financial_crew (Worker.inputs_of file_path query)
     = (Return out, tr) ->
     Worker.first_fault eng (Database.table (Worker.db wst)) = None ->
     exists row,
       fst (Worker.process_document rt eng file_path query wst)
       = Return (CrewAI.str_output out)
       /\ Database.table
            (Worker.db (snd (Worker.process_document rt eng file_path query wst)))
          = (Database.table (Worker.db wst) ++ [row])%list
       /\ Database.filename (Database.record row) = file_path
       /\ Database.query (Database.record row) = query
       /\ Database.result (Database.record row) = CrewAI.str_output out)
  /\ (forall v,
        fst (Worker.process_document rt eng file_path query wst) = Return v ->
        exists row,
          Database.table
            (Worker.db (snd (Worker.process_document rt eng file_path query wst)))
          = (Database.table (Worker.db wst) ++ [row])%list
          /\ Database.filename (Database.record row) = file_path
          /\ Database.query (Database.record row) = query
          /\ Database.result (Database.record row) = v)
  /\ (forall env file q st name contents,
        is_uuid_str (uuid4 env) = true ->
        filename file = Some name -> read file = Return contents ->
        open_fault env = None -> broker_fault env = None ->
        exists job,
          broker (snd (analyze_document env file q st)) = (broker st ++ [job])%list
          /\ job_file_path job = "data/" ++ uuid4 env ++ snd (splitext name)
          /\ job_query job = q
          /\ content_path (fst (analyze_document env file q st))
             = Some (PyStr (job_file_path job)))
  /\ (forall u name name',
        snd (splitext name) = snd (splitext name') ->
        upload_path u name = upload_path u name').
Proof.
  split.
  { intros out tr Hk Hf. rewrite Worker.process_document_run. cbv zeta.
    rewrite Hk. unfold Worker.first_fault in Hf.
    Worker.case_faults eng (Database.table (Worker.db wst)); try discriminate.
    eexists. repeat split. }
  split.
  { intros v Hv.
    destruct (Worker.process_document_table rt eng file_path query wst)
      as [(v' & k & Hv' & _ & Ht & _)|(e & He & _)]; [|congruence].
    rewrite Hv' in Hv. injection Hv as ->.
    eexists. split; [exact Ht|]. repeat split. }
  split.
  { intros env file q st name contents Hu Hname Hread Hopen Hbroker.
    rewrite (analyze_document_ok env file q st name contents
               Hu Hname Hread Hopen Hbroker).
    eexists. repeat split. }
  intros u name name' H. unfold upload_path. rewrite H. reflexivity.
Qed.

End Main.

(* ===================================================================== *)
(** * Further properties of the extractor (tools.py)                      *)
(* ===================================================================== *)

Module ToolsFacts.

Import Tools.

(** The total length of the page texts as extracted. *)
Fixpoint raw_length (texts : list (option string)) : nat :=
  match texts with
  | [] => 0
  | x :: rest => String.length (or_empty x) + raw_length rest
  end.

(** Every page is blank: no text, or whitespace only. *)
Definition all_pages_blank (texts : list (option string)) : bool :=
  forallb (fun x => all_space (or_empty x)) texts.

(** ** Normalisation and concatenation *)

Lemma head_app (s t : string) :
  head_is_nl (s ++ t) = match s with EmptyString => head_is_nl t | _ => head_is_nl s end.
Proof. destruct s; reflexivity. Qed.

Lemma squeeze_empty_iff (s : string) :
  squeeze_newlines s = EmptyString -> s = EmptyString.
Proof.
  induction s as [|a r IH]; [reflexivity|].
  rewrite squeeze_cons.
  destruct (Ascii.eqb a NL && head_is_nl r) eqn:H; [|discriminate].
  intros Hr. apply IH in Hr. subst r.
  rewrite andb_false_r in H. discriminate.
Qed.

Lemma head_squeeze_app (r t : string) :
  head_is_nl (squeeze_newlines r ++ t) = head_is_nl (r ++ t).
Proof.
  rewrite !head_app.
  destruct (squeeze_newlines r) eqn:Hsq.
  - apply squeeze_empty_iff in Hsq. subst r. reflexivity.
  - rewrite <- Hsq, head_squeeze. destruct r; [discriminate|reflexivity].
Qed.

Lemma squeeze_app_l (s t : string) :
  squeeze_newlines (squeeze_newlines s ++ t) = squeeze_newlines (s ++ t).
Proof.
  induction s as [|a r IH]; [reflexivity|].
  rewrite (squeeze_cons a r).
  destruct (Ascii.eqb a NL && head_is_nl r) eqn:H.
  - rewrite IH, app_cons, squeeze_cons.
    apply andb_true_iff in H as [Ha Hr]. rewrite Ha, head_app.
    destruct r; [discriminate|]. rewrite Hr. reflexivity.
  - rewrite !app_cons, !squeeze_cons, head_squeeze_app, IH. reflexivity.
Qed.

Lemma head_app_squeeze (r t : string) :
  head_is_nl (r ++ squeeze_newlines t) = head_is_nl (r ++ t).
Proof. rewrite !head_app. destruct r; [apply head_squeeze|reflexivity]. Qed.

Lemma squeeze_app_r (s t : string) :
  squeeze_newlines (s ++ squeeze_newlines t) = squeeze_newlines (s ++ t).
Proof.
  induction s as [|a r IH]; [apply squeeze_idempotent|].
  rewrite !app_cons, !squeeze_cons, head_app_squeeze, IH. reflexivity.
Qed.

Lemma squeeze_length (s : string) :
  String.length (squeeze_newlines s) <= String.length s.
Proof.
  induction s as [|a r IH]; [reflexivity|].
  rewrite squeeze_cons. destruct (Ascii.eqb a NL && head_is_nl r); simpl; lia.
Qed.

(** X1.  Normalising a text gives the same result as normalising its two
    halves and then the concatenation of the results; normalising twice
    changes nothing; the normalised text is never longer than the text. *)
Theorem collapse_loop_pieces (s t : string) :
  collapse_loop (s ++ t) = collapse_loop (collapse_loop s ++ collapse_loop t)
  /\ collapse_loop (collapse_loop s) = collapse_loop s
  /\ String.length (collapse_loop s) <= String.length s.
Proof.
  rewrite !collapse_loop_squeeze.
  split; [rewrite squeeze_app_l, squeeze_app_r; reflexivity|].
  split; [apply squeeze_idempotent|apply squeeze_length].
Qed.


(** ** Blank documents *)

Lemma all_space_app (s t : string) :
  all_space (s ++ t) = all_space s && all_space t.
Proof.
  induction s as [|a r IH]; [reflexivity|].
  rewrite app_cons. simpl. rewrite IH, andb_assoc. reflexivity.
Qed.

Lemma all_space_squeeze (s : string) :
  all_space (squeeze_newlines s) = all_space s.
Proof.
  induction s as [|a r IH]; [reflexivity|].
  rewrite squeeze_cons.
  destruct (Ascii.eqb a NL && head_is_nl r) eqn:H.
  - apply andb_true_iff in H as [Ha _]. apply Ascii.eqb_eq in Ha. subst a.
    rewrite IH. reflexivity.
  - simpl. rewrite IH. reflexivity.
Qed.

Lemma all_space_report (texts : list (option string)) :
  all_space (report_of texts) = all_pages_blank texts.
Proof.
  induction texts as [|x rest IH]; [reflexivity|].
  simpl report_of. rewrite !all_space_app, all_space_squeeze, IH.
  simpl. rewrite andb_true_r. reflexivity.
Qed.

Lemma report_not_warning (texts : list (option string)) :
  texts <> [] -> report_of texts <> warning_msg.
Proof.
  intros Hne Heq. destruct (report_of_ends_nl texts Hne) as [r Hr].
  pose proof (endswith_app r nl) as He. rewrite <- Hr, Heq in He.
  discriminate.
Qed.

(** X2.  For a document that reads without an exception, the warning is
    returned exactly when every page is blank (no text or whitespace only),
    a document without pages included. *)
Theorem run_warns_iff_all_pages_blank
    (w : World) (path : string) (texts : list (option string)) :
  reads_as w path texts ->
  (_run w (Some path) = Return warning_msg <-> all_pages_blank texts = true).
Proof.
  intros H. rewrite (run_reads w path texts H), all_space_report.
  destruct (all_pages_blank texts) eqn:Hb; split; try reflexivity; try discriminate.
  intros [= Heq]. exfalso. apply (report_not_warning texts); [|exact Heq].
  intros ->. discriminate.
Qed.

Lemma run_warns_iff_all_pages_blank_witness :
  _run (world_with [None; Some (" " ++ nl ++ nl)]) (Some "report.pdf")
  = Return warning_msg.
Proof.
  exact (proj2 (run_warns_iff_all_pages_blank
                  (world_with [None; Some (" " ++ nl ++ nl)]) "report.pdf"
                  [None; Some (" " ++ nl ++ nl)]
                  (world_with_reads [None; Some (" " ++ nl ++ nl)]))
               eq_refl).
Defined.

(** ** Faults while reading *)

(** X3.  When a page fails to extract, the pages before it having
    extracted, the text gathered so far is dropped and the failure message
    is returned; it carries the exception of that page, or the one raised
    by closing the PDF if closing fails as well. *)
Theorem run_reports_page_fault
    (w : World) (path : string) (pdf : PDF) (ps1 : list Page) (p : Page)
    (ps2 : list Page) (texts1 : list (option string)) (e : exn) :
  path_exists w path = true ->
  pdfplumber_open w path = Return pdf ->
  pages pdf = Return (ps1 ++ p :: ps2)%list ->
  map extract_text ps1 = map Return texts1 ->
  extract_text p = Raise e ->
  _run w (Some path)
  = Return (failed_msg (match close pdf with Raise e' => e' | Return _ => e end)).
Proof.
  intros Hex Hopen Hpages Htexts Hp.
  unfold _run. simpl path_of. rewrite Hex. simpl negb. cbv iota.
  unfold read_pages, with_. rewrite Hopen, Hpages. simpl bind.
  rewrite (for_pages_fault ps1 p ps2 texts1 e "" Htexts Hp).
  destruct (close pdf) as [[]|e']; reflexivity.
Qed.

Definition torn_pdf : PDF :=
  {| pages := Return [ {| extract_text := Return (Some "Revenue") |};
                       {| extract_text := Raise (PyError "KeyError" "MediaBox") |} ];
     close := Return tt |}.

Definition torn_world : World :=
  {| path_exists := fun _ => true;
     pdfplumber_open := fun _ => Return torn_pdf |}.

Lemma run_reports_page_fault_witness :
  _run torn_world (Some "report.pdf")
  = Return "ERROR: Failed to read PDF. Details: MediaBox".
Proof.
  exact (run_reports_page_fault torn_world "report.pdf" torn_pdf
           [ {| extract_text := Return (Some "Revenue") |} ]
           {| extract_text := Raise (PyError "KeyError" "MediaBox") |}
           [] [Some "Revenue"] (PyError "KeyError" "MediaBox")
           eq_refl eq_refl eq_refl eq_refl eq_refl).
Defined.

(** X4.  When closing an opened PDF raises, the failure message with that
    exception is returned whatever the pages gave: text that was fully
    extracted is discarded. *)
Theorem run_close_fault_wins
    (w : World) (path : string) (pdf : PDF) (e : exn) :
  path_exists w path = true ->
  pdfplumber_open w path = Return pdf ->
  close pdf = Raise e ->
  _run w (Some path) = Return (failed_msg e).
Proof.
  intros Hex Hopen Hclose.
  unfold _run. simpl path_of. rewrite Hex. simpl negb. cbv iota.
  unfold read_pages, with_. rewrite Hopen, Hclose.
  destruct (bind (pages pdf) (fun ps => for_pages ps "")); reflexivity.
Qed.

Definition unclosable_pdf : PDF :=
  {| pages := Return [ {| extract_text := Return (Some "Revenue: $100") |} ];
     close := Raise (PyError "OSError" "Bad file descriptor") |}.

Definition unclosable_world : World :=
  {| path_exists := fun _ => true;
     pdfplumber_open := fun _ => Return unclosable_pdf |}.

Lemma run_close_fault_wins_witness :
  _run unclosable_world (Some "report.pdf")
  = Return "ERROR: Failed to read PDF. Details: Bad file descriptor".
Proof.
  exact (run_close_fault_wins unclosable_world "report.pdf" unclosable_pdf
           (PyError "OSError" "Bad file descriptor") eq_refl eq_refl eq_refl).
Defined.


(** ** The report as a whole *)

(** The page texts as extracted, one after the other. *)
Fixpoint raw_text (texts : list (option string)) : string :=
  match texts with
  | [] => ""
  | x :: rest => or_empty x ++ raw_text rest
  end.

Lemma report_of_app (a b : list (option string)) :
  report_of (a ++ b) = report_of a ++ report_of b.
Proof.
  induction a as [|x a IH]; [reflexivity|].
  simpl. rewrite IH, !app_assoc. reflexivity.
Qed.

Lemma contains_nn_app_r (a b : string) :
  contains_nn b = true -> contains_nn (a ++ b) = true.
Proof.
  intros Hb. induction a as [|c a IH]; [exact Hb|].
  rewrite app_cons. destruct (a ++ b) as [|d u] eqn:E; [discriminate|].
  change (contains_nn (String c (String d u)))
    with ((Ascii.eqb c NL && Ascii.eqb d NL) || contains_nn (String d u)).
  rewrite IH. apply orb_true_r.
Qed.

Lemma endswith_inv (s t : string) :
  endswith s t = true -> exists r, s = r ++ t.
Proof.
  induction s as [|a s IH]; rewrite endswith_unfold; intros H;
    apply orb_true_iff in H as [H|H].
  - apply String.eqb_eq in H. exists "". rewrite app_empty_l. exact H.
  - discriminate.
  - apply String.eqb_eq in H. exists "". rewrite app_empty_l. exact H.
  - destruct (IH H) as [r ->]. exists (String a r). reflexivity.
Qed.

Lemma squeeze_keeps_final_nl (s : string) :
  exists r, squeeze_newlines (s ++ nl) = r ++ nl.
Proof.
  induction s as [|a s IH]; [exists ""; reflexivity|].
  destruct IH as [r Hr]. rewrite app_cons, squeeze_cons.
  destruct (Ascii.eqb a NL && head_is_nl (s ++ nl)).
  - exists r. exact Hr.
  - exists (String a r). rewrite Hr. reflexivity.
Qed.

Lemma report_blank_line_after_nl (pre : list (option string)) (x : option string)
    (post : list (option string)) :
  endswith (or_empty x) nl = true ->
  contains_nn (report_of (pre ++ x :: post)) = true.
Proof.
  intros H. destruct (endswith_inv _ _ H) as [s Hs].
  rewrite report_of_app. apply contains_nn_app_r.
  simpl report_of. rewrite Hs.
  destruct (squeeze_keeps_final_nl s) as [r ->].
  rewrite !app_assoc. apply contains_nn_app_r. reflexivity.
Qed.

Lemma report_blank_line_empty_page (pre : list (option string)) (x y : option string)
    (post : list (option string)) :
  or_empty y = "" ->
  contains_nn (report_of (pre ++ x :: y :: post)) = true.
Proof.
  intros Hy. rewrite report_of_app. apply contains_nn_app_r.
  simpl report_of. rewrite Hy.
  rewrite !app_assoc. apply contains_nn_app_r. reflexivity.
Qed.

(** X5.  Newline runs are collapsed page by page only: for a document
    that reads without an exception and is not blank, the returned text
    still contains a blank line whenever some page's text ends with a
    newline, or some page after the first has no text. *)
Theorem run_may_return_blank_lines
    (w : World) (path : string) (pre : list (option string)) (x : option string)
    (post : list (option string)) :
  reads_as w path (pre ++ x :: post) ->
  all_pages_blank (pre ++ x :: post) = false ->
  endswith (or_empty x) nl = true \/ (pre <> [] /\ or_empty x = "") ->
  exists r, _run w (Some path) = Return r /\ contains_nn r = true.
Proof.
  intros H Hb Hcase.
  exists (report_of (pre ++ x :: post)).
  split; [rewrite (run_reads _ _ _ H), all_space_report, Hb; reflexivity|].
  destruct Hcase as [Hnl|[Hpre Hx]].
  - apply report_blank_line_after_nl. exact Hnl.
  - destruct (exists_last Hpre) as (pre' & z & ->).
    rewrite <- List.app_assoc. simpl.
    apply report_blank_line_empty_page. exact Hx.
Qed.

Lemma run_may_return_blank_lines_witness :
  exists r,
    _run (world_with [Some ("Revenue" ++ nl); Some "Costs"]) (Some "report.pdf")
    = Return r
    /\ contains_nn r = true.
Proof.
  exact (run_may_return_blank_lines
           (world_with [Some ("Revenue" ++ nl); Some "Costs"]) "report.pdf"
           [] (Some ("Revenue" ++ nl)) [Some "Costs"]
           (world_with_reads [Some ("Revenue" ++ nl); Some "Costs"])
           eq_refl (or_introl eq_refl)).
Defined.

Lemma without_newlines_app (s t : string) :
  without_newlines (s ++ t) = without_newlines s ++ without_newlines t.
Proof.
  induction s as [|a s IH]; [reflexivity|].
  rewrite app_cons. simpl. rewrite IH.
  destruct (Ascii.eqb a NL); reflexivity.
Qed.

Lemma without_newlines_report (texts : list (option string)) :
  without_newlines (report_of texts) = without_newlines (raw_text texts).
Proof.
  induction texts as [|x rest IH]; [reflexivity|].
  simpl report_of. simpl raw_text.
  rewrite !without_newlines_app, without_newlines_squeeze, IH.
  change (without_newlines nl) with "". rewrite app_empty_r. reflexivity.
Qed.

Lemma report_length (texts : list (option string)) :
  length texts <= String.length (report_of texts)
  /\ String.length (report_of texts) <= raw_length texts + length texts.
Proof.
  induction texts as [|x rest [IH1 IH2]]; [simpl; lia|].
  simpl report_of. rewrite !length_app.
  pose proof (squeeze_length (or_empty x)). simpl. lia.
Qed.

(** X6.  For a document that reads without an exception and is not blank,
    the returned text has exactly the non-newline characters of the page
    texts, in order; its length is at least the number of pages and at most
    the length of the page texts plus one per page. *)
Theorem run_keeps_all_other_characters
    (w : World) (path : string) (texts : list (option string)) :
  reads_as w path texts ->
  all_pages_blank texts = false ->
  exists r,
    _run w (Some path) = Return r
    /\ without_newlines r = without_newlines (raw_text texts)
    /\ length texts <= String.length r
    /\ String.length r <= raw_length texts + length texts.
Proof.
  intros H Hb. exists (report_of texts).
  split; [rewrite (run_reads _ _ _ H), all_space_report, Hb; reflexivity|].
  split; [apply without_newlines_report|apply report_length].
Qed.

Lemma run_keeps_all_other_characters_witness :
  exists r,
    _run (world_with revenue_pages) (Some "report.pdf") = Return r
    /\ without_newlines r = "Revenue: $100Costs: $40"
    /\ 2 <= String.length r
    /\ String.length r <= 27.
Proof.
  exact (run_keeps_all_other_characters (world_with revenue_pages) "report.pdf"
           revenue_pages (world_with_reads revenue_pages) eq_refl).
Defined.

End ToolsFacts.

(* ===================================================================== *)
(** * Further properties of the worker (worker.py, database.py)           *)
(* ===================================================================== *)

Module WorkerFacts.

Import CrewAI Worker.

(** ** Primary keys *)

Lemma nodup_ids_snoc (eng : Database.Engine) (t : list Database.Row) (r : Database.Row) :
  NoDup (map Database.id t) ->
  Database.next_id eng t = Some (Database.id r) ->
  NoDup (map Database.id (t ++ [r])).
Proof.
  intros Hnd Hr. rewrite map_app. apply NoDup_app.
  split; [exact Hnd|]. split; [|apply NoDup_singleton].
  intros i Hi Hi'. apply list_elem_of_In in Hi.
  simpl in Hi'. apply list_elem_of_singleton in Hi'. subst i.
  apply (next_id_fresh _ _ _ Hr). exact Hi.
Qed.

(** X7.  A run keeps the primary keys of [analysis_results] distinct: if
    they are distinct before, they are distinct after, and every row
    present before is still there unchanged.  As long as every key in use
    is below the largest rowid, a row that was added has a key larger than
    all earlier ones. *)
Theorem process_document_keeps_keys_distinct
    (rt : Runtime) (eng : Database.Engine) (file_path query : string) (st : State) :
  NoDup (map Database.id (Database.table (db st))) ->
  NoDup (map Database.id
           (Database.table (db (snd (process_document rt eng file_path query st)))))
  /\ (forall r, In r (Database.table (db st)) ->
        In r (Database.table (db (snd (process_document rt eng file_path query st)))))
  /\ ((forall r, In r (Database.table (db st)) ->
         (Database.id r < Database.MAX_ROWID)%Z) ->
      forall r r',
        In r (Database.table (db st)) ->
        In r' (Database.table (db (snd (process_document rt eng file_path query st)))) ->
        ~ In r' (Database.table (db st)) ->
        (Database.id r < Database.id r')%Z).
Proof.
  intros Hnd.
  pose proof (process_document_table rt eng file_path query st) as Hrun.
  cbv zeta in Hrun.
  set (run := process_document rt eng file_path query st) in *.
  set (t := Database.table (db st)) in *.
  assert (Ht : Database.table (db (snd run)) = t
               \/ exists v k, Database.next_id eng t = Some k
                              /\ Database.table (db (snd run))
                                 = (t ++ [row_of eng k file_path query v])%list).
  { destruct Hrun
      as [(v & k & _ & Hk & Ht & _)
         |(e & _ & [Ht|(out & tr & k & _ & _ & _ & _ & Hk & _ & Ht)])];
      [right; exists v, k; split; assumption|left; exact Ht
      |right; eexists; exists k; split; [exact Hk|exact Ht]]. }
  destruct Ht as [->|(v & k & Hk & ->)].
  - split; [exact Hnd|]. split; [auto|]. intros _ r r' _ Hin Hnot. contradiction.
  - split; [apply (nodup_ids_snoc eng); [exact Hnd|exact Hk]|].
    split; [intros r Hr; apply in_or_app; left; exact Hr|].
    intros Hbound r r' Hr Hr' Hnot.
    apply in_app_or in Hr' as [Hr'|[<-|[]]]; [contradiction|].
    simpl. apply (next_id_above eng t k Hk Hbound r Hr).
Qed.

Definition one_row_state : State :=
  {| db := store [{| Database.id := 4%Z;
                     Database.record :=
                       {| Database.filename := "data/old.pdf";
                          Database.query := "q";
                          Database.result := "r" |};
                     Database.created_at := 1 |}] [];
     events := [] |}.

Lemma process_document_keeps_keys_distinct_witness :
  NoDup (map Database.id
           (Database.table
              (db (snd (process_document (scripted answers_ok) (no_faults 7)
                          "data/u.pdf" "q" one_row_state))))).
Proof.
  exact (proj1 (process_document_keeps_keys_distinct (scripted answers_ok)
                  (no_faults 7) "data/u.pdf" "q" one_row_state
                  ltac:(apply (bool_decide_unpack _); vm_compute; reflexivity))).
Defined.

(** ** Failed runs *)

(** X8.  A run that fails before the commit has gone through writes
    nothing: when the crew raises, or [SessionLocal()], [db.add] or
    [db.commit] raises, or the insert finds no key, the run raises that
    exception and the table is as before. *)
Theorem failed_run_writes_nothing
    (rt : Runtime) (eng : Database.Engine) (file_path query : string) (st : State) :
  let run := process_document rt eng file_path query st in
  let t := Database.table (db st) in
  (forall e tr,
     kickoff rt financial_crew (inputs_of file_path query) = (Raise e, tr) ->
     fst run = Raise e /\ Database.table (db (snd run)) = t)
  /\ (forall out tr e,
        kickoff rt financial_crew (inputs_of file_path query) = (Return out, tr) ->
        Database.session_fault eng = Some e ->
        fst run = Raise e /\ Database.table (db (snd run)) = t)
  /\ (forall out tr e,
        kickoff rt financial_crew (inputs_of file_path query) = (Return out, tr) ->
        Database.session_fault eng = None ->
        Database.add_fault eng = Some e ->
        fst run = Raise e /\ Database.table (db (snd run)) = t)
  /\ (forall out tr e,
        kickoff rt financial_crew (inputs_of file_path query) = (Return out, tr) ->
        Database.session_fault eng = None ->
        Database.add_fault eng = None ->
        Database.commit_fault eng = Some e ->
        fst run = Raise e /\ Database.table (db (snd run)) = t)
  /\ (forall out tr,
        kickoff rt financial_crew (inputs_of file_path query) = (Return out, tr) ->
        Database.session_fault eng = None ->
        Database.add_fault eng = None ->
        Database.commit_fault eng = None ->
        Database.next_id eng t = None ->
        fst run = Raise Database.database_full
        /\ Database.table (db (snd run)) = t).
Proof.
  cbv zeta. rewrite process_document_run. cbv zeta.
  split; [intros e tr ->; split; reflexivity|].
  split; [intros out tr e -> ->; split; reflexivity|].
  split; [intros out tr e -> -> ->; split; reflexivity|].
  split; [intros out tr e -> -> -> ->; split; reflexivity|].
  intros out tr -> -> -> -> ->. split; reflexivity.
Qed.

(** ** The two stages *)

Lemma kickoff_financial_crew (rt : Runtime) (inputs : gmap string string) :
  kickoff rt financial_crew inputs
  = match execute rt analyze_financial_document inputs [] with
    | Raise e => (Raise e, [Started 0; Failed 0])
    | Return o1 =>
        match execute rt verify_financial_analysis inputs [o1] with
        | Raise e => (Raise e, [Started 0; Finished 0; Started 1; Failed 1])
        | Return o2 =>
            (Return {| raw := o2; tasks_output := [o1; o2] |},
             [Started 0; Finished 0; Started 1; Finished 1])
        end
    end.
Proof.
  unfold kickoff. simpl.
  destruct (execute rt analyze_financial_document inputs []) as [o1|e]; [|reflexivity].
  simpl. destruct (execute rt verify_financial_analysis inputs [o1]) as [o2|e];
    reflexivity.
Qed.

(** X9.  With the sequential runner as embedded: both tasks receive the
    job's file path under [path] and its query under [query].  When the
    analyze task returns [o1], the verify task, run with [o1] as its only
    context, returns [o2], and no database step raises, the run returns
    [o2] and the row it appends holds [o2] as its result.  Conversely a run
    that returns [v] had [v] from the verify task run on the analyze task's
    output.  When the analyze task raises, the verify task is never
    started, the run raises the same exception and the table is as
    before. *)
Theorem process_document_returns_verified_output
    (rt : Runtime) (eng : Database.Engine) (file_path query : string) (st : State) :
  let run := process_document rt eng file_path query st in
  let inputs := inputs_of file_path query in
  let t := Database.table (db st) in
  inputs !! "path" = Some file_path
  /\ inputs !! "query" = Some query
  /\ (forall o1 o2,
        execute rt analyze_financial_document inputs [] = Return o1 ->
        execute rt verify_financial_analysis inputs [o1] = Return o2 ->
        first_fault eng t = None ->
        exists k,
          fst run = Return o2
          /\ Database.table (db (snd run)) = (t ++ [row_of eng k file_path query o2])%list)
  /\ (forall v, fst run = Return v ->
        exists o1,
          execute rt analyze_financial_document inputs [] = Return o1
          /\ execute rt verify_financial_analysis inputs [o1] = Return v)
  /\ (forall e,
        execute rt analyze_financial_document inputs [] = Raise e ->
        fst run = Raise e
        /\ Database.table (db (snd run)) = t
        /\ events (snd run) = (events st ++ [Started 0; Failed 0])%list).
Proof.
  cbv zeta.
  split; [reflexivity|]. split; [reflexivity|].
  rewrite process_document_run, kickoff_financial_crew. cbv zeta.
  split; [|split].
  - intros o1 o2 -> -> Hf. unfold first_fault in Hf.
    case_faults eng (Database.table (db st)); try discriminate.
    eexists. split; reflexivity.
  - intros v.
    destruct (execute rt analyze_financial_document _ []) as [o1|e]; [|discriminate].
    destruct (execute rt verify_financial_analysis _ [o1]) as [o2|e] eqn:Hv;
      [|discriminate].
    case_faults eng (Database.table (db st)); simpl; try discriminate.
    intros [= <-]. exists o1. split; [reflexivity|exact Hv].
  - intros e ->. repeat split.
Qed.

End WorkerFacts.

(* ===================================================================== *)
(** * Further properties of the front door (main.py)                      *)
(* ===================================================================== *)

Module MainFacts.

Import Celery OsPath Main.

(** ** Paths *)

Lemma take_drop (n : nat) (s : string) : (take n s ++ drop n s)%string = s.
Proof.
  revert s. induction n as [|n IH]; intros s; [reflexivity|].
  destruct s as [|a s]; [reflexivity|].
  simpl. rewrite Tools.app_cons, IH. reflexivity.
Qed.

Lemma has_char_app (c : ascii) (s t : string) :
  has_char c (s ++ t)%string = has_char c s || has_char c t.
Proof.
  induction s as [|a s IH]; [reflexivity|].
  rewrite Tools.app_cons. simpl. rewrite IH, orb_assoc. reflexivity.
Qed.

Lemma splitext_no_dot (p : string) :
  has_char "." p = false -> splitext p = (p, EmptyString).
Proof.
  intros H. unfold splitext. rewrite (rfind_absent _ _ H).
  pose proof (rfind_ge "/" p).
  destruct (rfind "/" p <? -1)%Z eqn:E; [apply Z.ltb_lt in E; lia|reflexivity].
Qed.

(** X10.  [os.path.splitext] as used for uploads: root and extension put
    back together give the name; the extension is empty or a dot followed
    by characters that are neither dots nor slashes; a name without a dot
    has no extension. *)
Theorem splitext_splits (p : string) :
  (fst (splitext p) ++ snd (splitext p))%string = p
  /\ (snd (splitext p) = EmptyString
      \/ exists r, snd (splitext p) = String "." r
                   /\ has_char "." r = false /\ has_char "/" r = false)
  /\ (has_char "." p = false -> splitext p = (p, EmptyString)).
Proof.
  split; [|split; [apply splitext_ext_shape|apply splitext_no_dot]].
  unfold splitext.
  destruct (rfind "/" p <? rfind "." p)%Z; [|apply Tools.app_empty_r].
  destruct (finds_name_char _ _ _); [apply take_drop|apply Tools.app_empty_r].
Qed.

Lemma upload_path_confined (u name : string) :
  is_uuid_str u = true ->
  exists r, upload_path u name = ("data/" ++ r)%string /\ has_char "/" r = false.
Proof.
  intros Hu. destruct (uuid_shape u Hu) as (_ & _ & Hsep & _).
  exists (u ++ snd (splitext name))%string. split; [reflexivity|].
  rewrite has_char_app, Hsep.
  destruct (splitext_ext_shape name) as [->|(r & -> & _ & Hr)]; [reflexivity|].
  simpl. exact Hr.
Qed.

(** X11.  When [uuid4] yields a UUID string, whatever file name the client
    sends (directory parts and [..] included), a saved upload lies directly
    in the upload directory: the returned path is [data/] followed by a
    name without any slash, and the only file written is that one. *)
Theorem save_upload_file_stays_in_upload_dir
    (env : Env) (upload_file : UploadFile) (st : State) :
  is_uuid_str (uuid4 env) = true ->
  forall p st',
    save_upload_file env upload_file st = (Return p, st') ->
    (exists r, p = ("data/" ++ r)%string /\ has_char "/" r = false)
    /\ (forall q, q <> p -> files st' !! q = files st !! q)
    /\ broker st' = broker st.
Proof.
  intros Hu p st'. unfold save_upload_file.
  destruct (filename upload_file) as [name|]; [|discriminate].
  destruct (read upload_file) as [contents|e]; [|discriminate].
  destruct (open_fault env) as [[e|e remains]|]; [discriminate|discriminate|].
  cbv zeta. rewrite (join_upload _ _ Hu). intros [= <- <-].
  split; [apply upload_path_confined, Hu|].
  split; [|reflexivity].
  intros q Hq. simpl. apply lookup_insert_ne. congruence.
Qed.

Definition traversal_upload : UploadFile :=
  {| filename := Some "../../etc/cron.d/job.sh";
     read := Return "#!/bin/sh" |}.

Lemma save_upload_file_stays_in_upload_dir_witness :
  exists r,
    "data/123e4567-e89b-42d3-a456-426614174000.sh" = ("data/" ++ r)%string
    /\ has_char "/" r = false.
Proof.
  exact (proj1 (save_upload_file_stays_in_upload_dir sample_env traversal_upload
                  empty_state eq_refl
                  "data/123e4567-e89b-42d3-a456-426614174000.sh"
                  _ eq_refl)).
Defined.

(** ** Files and jobs *)

(** X12.  After a successful request the queued job names a file that
    holds exactly the uploaded bytes; every other file and every job queued
    earlier is as before, and one job has been added. *)
Theorem analyze_document_links_job_to_file
    (env : Env) (file : UploadFile) (query : string) (st : State)
    (name contents : string) :
  is_uuid_str (uuid4 env) = true ->
  filename file = Some name -> read file = Return contents ->
  open_fault env = None -> broker_fault env = None ->
  exists job,
    broker (snd (analyze_document env file query st)) = (broker st ++ [job])%list
    /\ task_id job = new_task_id env
    /\ files (snd (analyze_document env file query st)) !! job_file_path job
       = Some contents
    /\ (forall q, q <> job_file_path job ->
          files (snd (analyze_document env file query st)) !! q = files st !! q).
Proof.
  intros Hu Hname Hread Hopen Hbroker.
  rewrite (analyze_document_ok env file query st name contents
             Hu Hname Hread Hopen Hbroker).
  eexists. split; [reflexivity|]. split; [reflexivity|]. simpl.
  split; [apply lookup_insert_eq|].
  intros q Hq. apply lookup_insert_ne. congruence.
Qed.

Lemma analyze_document_links_job_to_file_witness :
  exists job,
    broker (snd (analyze_document sample_env sample_upload "q" empty_state))
    = ([] ++ [job])%list
    /\ task_id job = new_task_id sample_env
    /\ files (snd (analyze_document sample_env sample_upload "q" empty_state))
         !! job_file_path job
       = Some "%PDF-1.7"
    /\ (forall q, q <> job_file_path job ->
          files (snd (analyze_document sample_env sample_upload "q" empty_state)) !! q
          = (∅ : gmap string string) !! q).
Proof.
  exact (analyze_document_links_job_to_file sample_env sample_upload "q" empty_state
           "annual report.final.pdf" "%PDF-1.7"
           eq_refl eq_refl eq_refl eq_refl eq_refl).
Defined.

(** X13.  When the upload is saved and the submission then raises, the
    request fails with status 500 but the saved file stays in the upload
    directory: nothing removes it, and no job refers to it. *)
Theorem failed_submission_leaves_file
    (env : Env) (file : UploadFile) (query : string) (st : State)
    (name contents : string) (e : exn) :
  is_uuid_str (uuid4 env) = true ->
  filename file = Some name -> read file = Return contents ->
  open_fault env = None -> broker_fault env = Some e ->
  analyze_document env file query st
  = (Raise (HTTPException 500 (str e)),
     {| files := <[upload_path (uuid4 env) name := contents]> (files st);
        broker := broker st |}).
Proof.
  intros Hu Hname Hread Hopen Hbroker.
  unfold analyze_document, save_upload_file, delay.
  rewrite Hname, Hread, Hopen, Hbroker. cbv zeta.
  rewrite (join_upload _ _ Hu). reflexivity.
Qed.

Definition broker_down_env : Env :=
  {| uuid4 := "123e4567-e89b-42d3-a456-426614174000";
     open_fault := None;
     new_task_id := "7c9e6679-7425-40de-944b-e07fc1f90ae7";
     broker_fault := Some (PyError "OperationalError" "Connection refused") |}.

Lemma failed_submission_leaves_file_witness :
  analyze_document broker_down_env sample_upload "q" empty_state
  = (Raise (HTTPException 500 "Connection refused"),
     {| files := <["data/123e4567-e89b-42d3-a456-426614174000.pdf" := "%PDF-1.7"]> ∅;
        broker := [] |}).
Proof.
  exact (failed_submission_leaves_file broker_down_env sample_upload "q" empty_state
           "annual report.final.pdf" "%PDF-1.7"
           (PyError "OperationalError" "Connection refused")
           eq_refl eq_refl eq_refl eq_refl eq_refl).
Defined.

(** ** Status objects *)

(** X14.  A status object has a [result] entry exactly when the state read
    is [SUCCESS] and an [error] entry exactly when it is [FAILURE]; it has
    one or two entries.  The value under [status] does not identify the
    state by itself: a raw state label spelled [completed] yields the same
    [status] as [SUCCESS], without a result. *)
Theorem get_status_keys (backend : gmap string TaskMeta) (task_id : string) :
  let m := AsyncResult backend task_id in
  (is_Some (dict_get "result" (get_status backend task_id)) <-> state m = "SUCCESS")
  /\ (is_Some (dict_get "error" (get_status backend task_id)) <-> state m = "FAILURE")
  /\ 1 <= length (get_status backend task_id) <= 2
  /\ (state m = "completed" ->
        get_status backend task_id = [("status", PyStr "completed")]).
Proof.
  cbv zeta. rewrite get_status_unfold.
  destruct (String.eqb_spec (state (AsyncResult backend task_id)) "PENDING") as [E1|N1].
  { rewrite E1. simpl. repeat split; try lia; try discriminate;
      intros [x Hx]; discriminate. }
  destruct (String.eqb_spec (state (AsyncResult backend task_id)) "SUCCESS") as [E2|N2].
  { rewrite E2. simpl. repeat split; try lia; try discriminate; eauto;
      intros [x Hx]; discriminate. }
  destruct (String.eqb_spec (state (AsyncResult backend task_id)) "FAILURE") as [E3|N3].
  { rewrite E3. simpl. repeat split; try lia; try discriminate; eauto;
      intros [x Hx]; discriminate. }
  simpl. repeat split;
    first [lia | contradiction | (intros [x Hx]; discriminate)
          | (intros H; rewrite H; reflexivity)].
Qed.

End MainFacts.

(* ===================================================================== *)
(** * From submission to status: the front door, the queue, the worker    *)
(* ===================================================================== *)

Module Pipeline.

Import Celery.

(** The worker side of the system: the database and event log of the task
    body, the result backend the front door polls, and how that backend
    gives back an exception it has stored (by type and arguments). *)
Record System : Type := {
  worker : Worker.State;
  backend : gmap string TaskMeta;
  exception_to_python : exn -> exn
}.

(** The worker process taking one job off the queue, as the decorator
    [@celery_app.task(name="worker.process_document")] and
    [task_track_started=True] make it: the task is marked [STARTED], the
    body [process_document(file_path, query)] runs, and its outcome is
    recorded under the task id. *)
Definition run_job (rt : CrewAI.Runtime) (eng : Database.Engine) (job : Main.Job)
    (s : System) : System :=
  let started := mark_started (Main.task_id job) (backend s) in
  let '(r, wst) :=
    Worker.process_document rt eng (Main.job_file_path job) (Main.job_query job)
      (worker s) in
  {| worker := wst;
     backend := mark_done (exception_to_python s) (Main.task_id job) r started;
     exception_to_python := exception_to_python s |}.


Definition rows (s : System) : list Database.Row :=
  Database.table (Worker.db (worker s)).



(** ** One job *)

Lemma run_job_unfold (rt : CrewAI.Runtime) (eng : Database.Engine) (job : Main.Job)
    (s : System) :
  run_job rt eng job s
  = {| worker :=
         snd (Worker.process_document rt eng (Main.job_file_path job)
                (Main.job_query job) (worker s));
       backend :=
         <[Main.task_id job :=
             meta_of (exception_to_python s)
               (fst (Worker.process_document rt eng (Main.job_file_path job)
                       (Main.job_query job) (worker s)))]> (backend s);
       exception_to_python := exception_to_python s |}.
Proof.
  unfold run_job, mark_done, mark_started.
  destruct (Worker.process_document _ _ _ _ _) as [r wst]. simpl.
  rewrite insert_insert_eq. reflexivity.
Qed.

Lemma run_job_other (rt : CrewAI.Runtime) (eng : Database.Engine) (job : Main.Job)
    (s : System) (id : string) :
  id <> Main.task_id job ->
  backend (run_job rt eng job s) !! id = backend s !! id.
Proof.
  intros H. rewrite run_job_unfold. simpl. apply lookup_insert_ne. congruence.
Qed.

Lemma run_job_outcome (rt : CrewAI.Runtime) (eng : Database.Engine) (job : Main.Job)
    (s : System) :
  let s' := run_job rt eng job s in
  let body :=
    Worker.process_document rt eng (Main.job_file_path job) (Main.job_query job)
      (worker s) in
  (exists v k,
     fst body = Return v
     /\ backend s' !! Main.task_id job = Some {| state := "SUCCESS"; result := PyStr v |}
     /\ rows s'
        = (rows s ++ [Worker.row_of eng k (Main.job_file_path job)
                        (Main.job_query job) v])%list)
  \/ (exists e,
        fst body = Raise e
        /\ backend s' !! Main.task_id job
           = Some {| state := "FAILURE"; result := PyExc (exception_to_python s e) |}
        /\ (rows s' = rows s
            \/ (Database.close_fault eng = Some e
                /\ exists row, rows s' = (rows s ++ [row])%list))).
Proof.
  cbv zeta. rewrite run_job_unfold. unfold rows. simpl.
  rewrite lookup_insert_eq.
  destruct (Worker.process_document_table rt eng (Main.job_file_path job)
              (Main.job_query job) (worker s))
    as [(v & k & Hv & _ & Ht & _)
       |(e & He & [Ht|(out & tr & k & _ & _ & _ & _ & _ & Hc & Ht)])].
  - left. exists v, k. rewrite Hv. split; [reflexivity|]. split; [reflexivity|exact Ht].
  - right. exists e. rewrite He. split; [reflexivity|].
    split; [reflexivity|left; exact Ht].
  - right. exists e. rewrite He. split; [reflexivity|]. split; [reflexivity|].
    right. split; [exact Hc|]. eexists. exact Ht.
Qed.

(** X15.  From request to poll.  For a request that is accepted (a UUID
    string from [uuid4], a readable upload, no fault while saving or
    submitting) and a task id the backend has not seen: polling before the
    worker has taken the job answers pending.  Once the worker has run it:
    if the task body returned [v], polling answers completed with [v], and
    [v] is the result stored in the row just added for the saved path and
    the query; if the task body raised [e], polling answers failed with the
    string of the exception the backend gives back for [e].  The body
    returns whenever the crew returns and no database step raises.  The
    answers for all other task ids are unchanged by the run. *)
Theorem submitted_job_ends_completed_or_failed
    (env : Main.Env) (file : Main.UploadFile) (query : string) (st : Main.State)
    (name contents : string) (rt : CrewAI.Runtime) (eng : Database.Engine)
    (s : System) :
  Main.is_uuid_str (Main.uuid4 env) = true ->
  Main.filename file = Some name -> Main.read file = Return contents ->
  Main.open_fault env = None -> Main.broker_fault env = None ->
  backend s !! Main.new_task_id env = None ->
  exists job,
    Main.broker (snd (Main.analyze_document env file query st))
    = (Main.broker st ++ [job])%list
    /\ Main.job_file_path job = Main.upload_path (Main.uuid4 env) name
    /\ Main.job_query job = query
    /\ Main.get_status (backend s) (Main.task_id job) = [("status", PyStr "pending")]
    /\ (forall v,
          fst (Worker.process_document rt eng (Main.job_file_path job)
                 (Main.job_query job) (worker s)) = Return v ->
          Main.get_status (backend (run_job rt eng job s)) (Main.task_id job)
          = [("status", PyStr "completed"); ("result", PyStr v)]
          /\ exists row,
               rows (run_job rt eng job s) = (rows s ++ [row])%list
               /\ Database.filename (Database.record row)
                  = Main.upload_path (Main.uuid4 env) name
               /\ Database.query (Database.record row) = query
               /\ Database.result (Database.record row) = v)
    /\ (forall e,
          fst (Worker.process_document rt eng (Main.job_file_path job)
                 (Main.job_query job) (worker s)) = Raise e ->
          Main.get_status (backend (run_job rt eng job s)) (Main.task_id job)
          = [("status", PyStr "failed");
             ("error", PyStr (str (exception_to_python s e)))])
    /\ (forall out tr,
          CrewAI.kickoff rt Worker.financial_crew
            (Worker.inputs_of (Main.job_file_path job) (Main.job_query job))
          = (Return out, tr) ->
          Worker.first_fault eng (rows s) = None ->
          fst (Worker.process_document rt eng (Main.job_file_path job)
                 (Main.job_query job) (worker s))
          = Return (CrewAI.str_output out))
    /\ (forall id, id <> Main.task_id job ->
          Main.get_status (backend (run_job rt eng job s)) id
          = Main.get_status (backend s) id).
Proof.
  intros Hu Hname Hread Hopen Hbroker Hfresh.
  rewrite (Main.analyze_document_ok env file query st name contents
             Hu Hname Hread Hopen Hbroker).
  eexists. split; [reflexivity|]. cbn [Main.task_id Main.job_file_path Main.job_query].
  split; [reflexivity|]. split; [reflexivity|].
  split.
  { rewrite Main.get_status_unfold. unfold AsyncResult. rewrite Hfresh. reflexivity. }
  match goal with |- context [run_job rt eng ?j s] =>
    pose proof (run_job_outcome rt eng j s) as Hout end.
  cbv zeta in Hout. cbn [Main.task_id Main.job_file_path Main.job_query] in Hout.
  split.
  { intros v Hv. destruct Hout as [(v' & k & Hv' & Hb & Hr)|(e & He & _)];
      [|congruence].
    rewrite Hv' in Hv. injection Hv as <-.
    split.
    - rewrite Main.get_status_unfold. unfold AsyncResult. rewrite Hb. reflexivity.
    - eexists. split; [exact Hr|]. repeat split. }
  split.
  { intros e He. destruct Hout as [(v' & k & Hv' & _)|(e' & He' & Hb & _)];
      [congruence|].
    rewrite He' in He. injection He as <-.
    rewrite Main.get_status_unfold. unfold AsyncResult. rewrite Hb. reflexivity. }
  split.
  { intros out tr Hk Hf. rewrite Worker.process_document_run. cbv zeta.
    rewrite Hk. unfold rows in Hf. unfold Worker.first_fault in Hf.
    Worker.case_faults eng (Database.table (Worker.db (worker s)));
      try discriminate. reflexivity. }
  intros id Hid. rewrite !Main.get_status_unfold. unfold AsyncResult.
  rewrite run_job_other by exact Hid. reflexivity.
Qed.

Definition idle_system : System :=
  {| worker := Worker.empty_state;
     backend := ∅;
     exception_to_python := fun e => e |}.

Lemma submitted_job_ends_completed_or_failed_witness :
  exists job,
    Main.broker (snd (Main.analyze_document Main.sample_env Main.sample_upload
                        "What is the revenue?" Main.empty_state))
    = ([] ++ [job])%list
    /\ Main.job_file_path job = "data/123e4567-e89b-42d3-a456-426614174000.pdf"
    /\ Main.get_status
         (backend (run_job (Worker.scripted Worker.answers_ok) (Worker.no_faults 7)
                     job idle_system)) (Main.task_id job)
       = [("status", PyStr "completed"); ("result", PyStr "Verified: revenue is $100.")].
Proof.
  destruct (submitted_job_ends_completed_or_failed Main.sample_env Main.sample_upload
              "What is the revenue?" Main.empty_state "annual report.final.pdf"
              "%PDF-1.7" (Worker.scripted Worker.answers_ok) (Worker.no_faults 7)
              idle_system eq_refl eq_refl eq_refl eq_refl eq_refl eq_refl)
    as (job & Hq & Hp & Hquery & _ & Hok & _ & Hret & _).
  exists job. split; [exact Hq|]. split; [exact Hp|].
  refine (proj1 (Hok "Verified: revenue is $100." _)).
  rewrite Hp, Hquery. exact (Hret _ _ eq_refl eq_refl).
Defined.

(** ** A queue of jobs *)








End Pipeline.

(* ===================================================================== *)
(** * agents.py: the environment check at import                          *)
(* ===================================================================== *)

Module Agents.

Definition OPENAI_API_KEY : string := "OPENAI_API_KEY".

(** [load_dotenv(override=True)]: every variable the [.env] file gives a
    value to is written to [os.environ], replacing a value already there.
    [dotenv] holds the variables of the file, [environ] the process
    environment. *)
Definition load_dotenv (dotenv environ : gmap string string) : gmap string string :=
  dotenv ∪ environ.

(** [os.getenv(k)] *)
Definition getenv (environ : gmap string string) (k : string) : option string :=
  environ !! k.

(** Truthiness of an [Optional[str]]. *)
Definition truthy_opt (x : option string) : bool :=
  match x with
  | Some s => truthy s
  | None => false
  end.

(** The start of [agents.py]: load the [.env] file, then fail fast when the
    key is missing.  A successful import leaves the environment in place. *)
Definition import_agents (dotenv environ : gmap string string)
  : outcome (gmap string string) :=
  let environ := load_dotenv dotenv environ in
  if negb (truthy_opt (getenv environ OPENAI_API_KEY)) then
    Raise (PyError "ValueError" "OPENAI_API_KEY not found in environment")
  else Return environ.

Lemma truthy_nonempty (s : string) : truthy s = true <-> s <> "".
Proof. destruct s; simpl; split; congruence. Qed.

(** X17.  The import of [agents.py] succeeds exactly when, after the
    [.env] file has overridden the process environment, the key is set to
    a non-empty string (whitespace only counts as set).  A value in the
    [.env] file decides alone: an empty one makes the import fail even if
    the process environment holds a key, and a non-empty one makes it
    succeed even if the process environment holds none; without an entry
    in the file the process environment decides. *)
Theorem import_agents_needs_key (dotenv environ : gmap string string) :
  (is_return (import_agents dotenv environ) = true
   <-> exists k, (dotenv ∪ environ) !! OPENAI_API_KEY = Some k /\ k <> "")
  /\ (forall k, dotenv !! OPENAI_API_KEY = Some k ->
        import_agents dotenv environ
        = if truthy k then Return (dotenv ∪ environ)
          else Raise (PyError "ValueError" "OPENAI_API_KEY not found in environment"))
  /\ (dotenv !! OPENAI_API_KEY = None ->
        is_return (import_agents dotenv environ)
        = truthy_opt (environ !! OPENAI_API_KEY))
  /\ (forall env', import_agents dotenv environ = Return env' ->
        env' = dotenv ∪ environ
        /\ forall x v, dotenv !! x = Some v -> env' !! x = Some v).
Proof.
  unfold import_agents, load_dotenv, getenv.
  split; [|split; [|split]].
  - destruct ((dotenv ∪ environ) !! OPENAI_API_KEY) as [k|] eqn:E; simpl.
    + destruct (truthy k) eqn:Hk; simpl; split.
      * intros _. exists k. split; [reflexivity|]. apply truthy_nonempty, Hk.
      * reflexivity.
      * discriminate.
      * intros (k' & [= <-] & Hne). apply truthy_nonempty in Hne. congruence.
    + split; [discriminate|]. intros (k & [=] & _).
  - intros k Hk. rewrite (lookup_union_Some_l _ _ _ _ Hk). simpl.
    destruct (truthy k); reflexivity.
  - intros Hnone. rewrite (lookup_union_r _ _ _ Hnone).
    destruct (environ !! OPENAI_API_KEY) as [k|]; simpl; [|reflexivity].
    destruct (truthy k); reflexivity.
  - intros env'.
    destruct (negb (truthy_opt ((dotenv ∪ environ) !! OPENAI_API_KEY)));
      [discriminate|].
    intros [= <-]. split; [reflexivity|].
    intros x v Hx. apply lookup_union_Some_l. exact Hx.
Qed.

Example empty_key_in_dotenv_masks_environment :
  import_agents {[ "OPENAI_API_KEY" := "" ]} {[ "OPENAI_API_KEY" := "sk-live" ]}
  = Raise (PyError "ValueError" "OPENAI_API_KEY not found in environment").
Proof.
  unfold import_agents, load_dotenv, getenv.
  rewrite (lookup_union_Some_l _ _ _ "" (lookup_singleton_eq _ _)). reflexivity.
Qed.

End Agents.

(* ===================================================================== *)
(** * Two requests in a row (main.py)                                     *)
(* ===================================================================== *)

Module Uploads.

Import Main.

Definition job_of (env : Env) (name query : string) : Job :=
  {| task_id := new_task_id env;
     job_file_path := upload_path (uuid4 env) name;
     job_query := query |}.

(** X18.  Two accepted requests whose generated UUIDs differ do not
    disturb each other: after both, each upload is on disk under its own
    path with its own bytes, and the queue holds the two jobs after the
    earlier ones, in the order of the requests. *)
Theorem two_uploads_keep_both_files
    (env1 env2 : Env) (file1 file2 : UploadFile) (q1 q2 : string) (st : State)
    (name1 c1 name2 c2 : string) :
  is_uuid_str (uuid4 env1) = true -> is_uuid_str (uuid4 env2) = true ->
  uuid4 env1 <> uuid4 env2 ->
  filename file1 = Some name1 -> read file1 = Return c1 ->
  open_fault env1 = None -> broker_fault env1 = None ->
  filename file2 = Some name2 -> read file2 = Return c2 ->
  open_fault env2 = None -> broker_fault env2 = None ->
  let st1 := snd (analyze_document env1 file1 q1 st) in
  let st2 := snd (analyze_document env2 file2 q2 st1) in
  files st2 !! upload_path (uuid4 env1) name1 = Some c1
  /\ files st2 !! upload_path (uuid4 env2) name2 = Some c2
  /\ broker st2 = (broker st ++ [job_of env1 name1 q1; job_of env2 name2 q2])%list.
Proof.
  intros Hu1 Hu2 Hne Hn1 Hr1 Ho1 Hb1 Hn2 Hr2 Ho2 Hb2. cbv zeta.
  rewrite (analyze_document_ok env1 file1 q1 st name1 c1 Hu1 Hn1 Hr1 Ho1 Hb1).
  cbn [snd].
  rewrite (analyze_document_ok env2 file2 q2 _ name2 c2 Hu2 Hn2 Hr2 Ho2 Hb2).
  cbn [snd files broker].
  assert (Hp : upload_path (uuid4 env2) name2 <> upload_path (uuid4 env1) name1).
  { intros Heq. apply Hne. symmetry.
    apply (upload_path_inj _ _ name2 name1); [|exact Heq].
    destruct (uuid_shape _ Hu1) as [-> _]. destruct (uuid_shape _ Hu2) as [-> _].
    reflexivity. }
  split; [rewrite lookup_insert_ne by exact Hp; apply lookup_insert_eq|].
  split; [apply lookup_insert_eq|].
  rewrite <- List.app_assoc. reflexivity.
Qed.

Definition second_env : Env :=
  {| uuid4 := "9b2e4c1a-0f3d-4e5b-8a6c-7d8e9f0a1b2c";
     open_fault := None;
     new_task_id := "1f0e9d8c-7b6a-4f5e-9d3c-2b1a0f9e8d7c";
     broker_fault := None |}.

Definition second_upload : UploadFile :=
  {| filename := Some "q3.pdf"; read := Return "%PDF-1.4" |}.

Lemma two_uploads_keep_both_files_witness :
  files (snd (analyze_document second_env second_upload "b"
                (snd (analyze_document sample_env sample_upload "a" empty_state))))
    !! "data/123e4567-e89b-42d3-a456-426614174000.pdf"
  = Some "%PDF-1.7".
Proof.
  exact (proj1 (two_uploads_keep_both_files sample_env second_env sample_upload
                  second_upload "a" "b" empty_state
                  "annual report.final.pdf" "%PDF-1.7" "q3.pdf" "%PDF-1.4"
                  eq_refl eq_refl ltac:(discriminate)
                  eq_refl eq_refl eq_refl eq_refl eq_refl eq_refl eq_refl eq_refl)).
Defined.

End Uploads.
